(** * Mitsubishi i-MiEV vehicle module of the Open Vehicle Monitoring System

    A shallow embedding of [vehicle/OVMS.X/vehicle_mitsubishi.c]: the two
    CAN frame handlers, the one-second and ten-second tickers and the
    initialisation entry point, as functions on an explicit machine state,
    followed by the properties of the telemetry state machine. *)

From Stdlib Require Import ZArith Lia List.
From Stdlib.Strings Require Import Byte.
From stdpp Require Import base tactics decidable option list.

Local Open Scope Z_scope.

(** ** Machine integers

    The target is a PIC18 compiled with C18: [char] has 8 bits, [int] 16 and
    [long] 32.  A value is kept as a [Z]; every store into a variable writes
    the wrap-around of the variable's type out. *)

Definition u8 (z : Z) : Z := z mod 2 ^ 8.
Definition u16 (z : Z) : Z := z mod 2 ^ 16.
Definition u32 (z : Z) : Z := z mod 2 ^ 32.
Definition s8 (z : Z) : Z := (z + 2 ^ 7) mod 2 ^ 8 - 2 ^ 7.

(** Modelled from the spec: the declarations of the telemetry store
    ([ovms.h]) are not among the sources of the module.  The spec's design
    notes describe the original's timers and accumulators as fixed-width,
    overflow-prone 8-bit counters; so the kWh accumulator is a byte.  The
    charge duration and the line voltage are 16-bit [unsigned int]s (the
    product of the byte current and the line voltage is therefore a 16-bit
    product) and the clock is a 32-bit [unsigned long]. *)
Definition kwh_wrap (z : Z) : Z := u8 z.
Definition minutes_wrap (z : Z) : Z := u16 z.
Definition watts_wrap (z : Z) : Z := u16 z.
Definition clock_wrap (z : Z) : Z := u32 z.

(** ** The variables

    The nine scalar [mi_*] statics of the module, and the scalars of the
    framework's telemetry store ([ovms.h]) that the module reads or
    writes. *)

Inductive var : Set :=
  | mi_charge_timer | mi_charge_wm | mi_candata_timer | mi_stale_charge
  | mi_quick_charge | mi_qc_counter | mi_estrange
  | mi_last_good_SOC | mi_last_good_range
  | car_stale_temps | car_doors1 | car_doors3 | car_doors5
  | car_linevoltage | car_chargecurrent | car_time | car_SOC
  | car_estrange | car_idealrange | can_mileskm
  | car_chargemode | car_chargestate | car_chargesubstate | car_chargelimit
  | car_chargeduration | car_chargekwh
  | car_tbattery | car_tpem | car_tmotor
  | car_speed | car_odometer | car_parktime
  | car_stale_timer | car_SOCalertlimit | net_fnbits.

#[global] Instance var_eq_dec : EqDecision var.
Proof. solve_decision. Defined.

(** The kinds of notification handed to [net_req_notification]. *)
Inductive notification : Set :=
  | NET_NOTIFY_STAT | NET_NOTIFY_CHARGE | NET_NOTIFY_ENV.

#[global] Instance notification_eq_dec : EqDecision notification.
Proof. solve_decision. Defined.

(** The machine state: the scalar store, the 24-slot temperature buffer,
    the vehicle type string, and the notifications requested so far (the
    notification subsystem is external; the requests are kept as a log,
    oldest first). *)
Record state : Type := mkState {
  scalar : var -> Z;
  mi_batttemps : list Z;
  car_type : list Z;
  net_notify : list notification
}.

Definition get (st : state) (x : var) : Z := scalar st x.

Definition set (x : var) (v : Z) (st : state) : state :=
  {| scalar := fun y => if decide (y = x) then v else scalar st y;
     mi_batttemps := mi_batttemps st;
     car_type := car_type st;
     net_notify := net_notify st |}.

Definition set_batttemps (l : list Z) (st : state) : state :=
  {| scalar := scalar st; mi_batttemps := l;
     car_type := car_type st; net_notify := net_notify st |}.

Definition set_car_type (l : list Z) (st : state) : state :=
  {| scalar := scalar st; mi_batttemps := mi_batttemps st;
     car_type := l; net_notify := net_notify st |}.

Definition net_req_notification (n : notification) (st : state) : state :=
  {| scalar := scalar st; mi_batttemps := mi_batttemps st;
     car_type := car_type st; net_notify := net_notify st ++ [n] |}.

Notation "st '.[' x ']'" := (get st x)
  (at level 1, left associativity, format "st .[ x ]").

(** A bit-field member of a flags byte: [bits.member = 1] sets the bits of
    [mask], [bits.member = 0] clears them. *)
Definition set_bitfield (x : var) (mask : Z) (b : bool) (st : state) : state :=
  set x (if b then Z.lor st.[x] mask else Z.land st.[x] (Z.lnot mask)) st.

(** Masks of the bit-field members, as [ovms.h] lays the flag bytes out.
    [ChargePort] is bit 2 of [car_doors1] (the table above the charge state
    determination: 0x04 charge port, 0x08 pilot signal, 0x10 charging);
    [CoolingPump] lies in [car_doors3] next to the awake bit 0x01,
    [Charging12V] in [car_doors5]. *)
Definition ChargePort : Z := 0x04.
Definition CoolingPump : Z := 0x02.
Definition Charging12V : Z := 0x10.

(** ** CAN frames

    [can_id] and the eight bytes of [can_databuffer], as the receive
    interrupt leaves them for the handlers. *)
Record can_frame : Type := mkFrame {
  can_id : Z;
  can_databuffer : list byte
}.

Definition data (f : can_frame) (i : nat) : Z :=
  match can_databuffer f !! i with
  | Some b => Z.of_N (Byte.to_N b)
  | None => 0
  end.

Definition byte_of_Z (z : Z) : byte :=
  match Byte.of_N (Z.to_N (u8 z)) with Some b => b | None => x00 end.

Definition frame (id : Z) (bytes : list Z) : can_frame :=
  mkFrame id (map byte_of_Z bytes).

(** ** [vehicle_mitsubishi_poll0]: range, state of charge, charger signals

    The entry points return a constant ([TRUE] from the frame handlers and
    the initialisation, [FALSE] from the tickers); the model keeps the
    state they leave. *)

Definition vehicle_mitsubishi_poll0 (f : can_frame) (st : state) : state :=
  let st := set mi_candata_timer 60 st in
  if bool_decide (can_id f = 0x346) then
    let st := set mi_estrange (u16 (data f 7)) st in
    if bool_decide (st.[mi_estrange] = 255 /\ st.[car_speed] < 5) then
      let st := if bool_decide (st.[mi_qc_counter] > 0)
                then set mi_qc_counter (u8 (st.[mi_qc_counter] - 1)) st
                else st in
      if bool_decide (st.[mi_qc_counter] = 0)
      then set mi_stale_charge 30 (set mi_quick_charge 1 st)
      else st
    else
      if bool_decide (st.[mi_qc_counter] < 3)
      then set mi_qc_counter (u8 (st.[mi_qc_counter] + 1)) st
      else set mi_quick_charge 0 st
  else if bool_decide (can_id f = 0x374) then
    set car_SOC (u8 (u16 (data f 1 - 10) / 2)) st
  else if bool_decide (can_id f = 0x389) then
    let st := set car_linevoltage (u8 (data f 1)) st in
    let st := set car_chargecurrent (u8 (data f 6 / 10)) st in
    set mi_stale_charge 30 st
  else st.

(** ** The framework helpers the module calls

    [MiFromKm] is the framework's unit conversion (kilometres to miles, on
    [unsigned long]); [udiv0] stands for the quotient the target's 16-bit
    division routine leaves when the divisor is zero, which C does not
    define; [NET_FN_INTERNALGPS] and [NET_FN_12VMONITOR] are the feature
    masks of [net_msg.h].  None of them is defined in this file of the
    firmware, so everything below holds for whatever they are. *)

Section Mitsubishi.

Variable MiFromKm : Z -> Z.
Variable udiv0 : Z -> Z.
Variables NET_FN_INTERNALGPS NET_FN_12VMONITOR : Z.

(** Unsigned 16-bit division. *)
Definition udiv16 (a b : Z) : Z :=
  if bool_decide (b = 0) then u16 (udiv0 a) else a / b.

(** ** [vehicle_mitsubishi_ticker1]

    The body falls into the three parts its banners name. *)

(** *** Stale tickers (and the clock) *)
Definition stale_tickers (st : state) : state :=
  let st := set_bitfield car_doors3 CoolingPump
              (if bool_decide (st.[car_stale_temps] <= 1) then false else true) st in
  let st :=
    if bool_decide (st.[mi_stale_charge] > 0) then
      let st := set mi_stale_charge (u8 (st.[mi_stale_charge] - 1)) st in
      if bool_decide (st.[mi_stale_charge] = 0) then
        let st := set mi_quick_charge 0 st in
        let st := set car_linevoltage 0 st in
        set car_chargecurrent 0 st
      else st
    else st in
  let st :=
    if bool_decide (st.[mi_candata_timer] > 0) then
      let st := set mi_candata_timer (u8 (st.[mi_candata_timer] - 1)) st in
      if bool_decide (st.[mi_candata_timer] = 0)
      then set car_doors3 (Z.land st.[car_doors3] (Z.lnot 0x01)) st
      else set car_doors3 (Z.lor st.[car_doors3] 0x01) st
    else st in
  set car_time (clock_wrap (st.[car_time] + 1)) st.

(** *** Range update *)
Definition range_update (st : state) : state :=
  let st :=
    if bool_decide (st.[mi_quick_charge] = 1) then
      if bool_decide (st.[car_SOC] <= 10) then
        set car_estrange 0 st
      else
        let st :=
          if bool_decide (st.[car_SOC] < 20) then
            let st := set mi_last_good_SOC 20 st in
            set mi_last_good_range 8 st
          else st in
        set car_estrange
          (udiv16 (u16 (u16 st.[mi_last_good_range] * u16 (st.[car_SOC] - 10)))
                  (u16 (st.[mi_last_good_SOC] - 10))) st
    else
      let st :=
        if bool_decide (st.[mi_estrange] <> 255) then
          if bool_decide (st.[can_mileskm] = 75 (* 'K' *))
          then set car_estrange (u16 (MiFromKm (u32 st.[mi_estrange]))) st
          else set car_estrange st.[mi_estrange] st
        else st in
      if bool_decide (st.[car_SOC] >= 20 /\ st.[car_estrange] >= 5) then
        let st := set mi_last_good_SOC st.[car_SOC] st in
        set mi_last_good_range (u8 st.[car_estrange]) st
      else st in
  if bool_decide (st.[car_SOC] <= 10)
  then set car_idealrange 0 st
  else set car_idealrange (u16 (u16 (u16 st.[car_SOC] - 10) * 104) / 100) st.

(** *** Charge state determination *)
Definition charge_state_determination (st : state) : state :=
  if bool_decide (st.[mi_quick_charge] = 1 \/
                  (st.[car_chargecurrent] <> 0 /\ st.[car_linevoltage] > 100)) then
    (* CAN says the car is charging *)
    let st := set_bitfield car_doors5 Charging12V true st in
    if bool_decide (Z.land st.[car_doors1] 0x08 = 0) then
      (* Charge has started *)
      let st := set car_doors1 (Z.lor st.[car_doors1] 0x1c) st in
      let st := set car_chargemode 0 st in
      let st := set car_chargestate 1 st in
      let st := set car_chargesubstate 3 st in
      let st := if bool_decide (st.[mi_quick_charge] = 1)
                then set car_chargelimit 125 st
                else set car_chargelimit 16 st in
      let st := set car_chargeduration 0 st in
      let st := set car_chargekwh 0 st in
      let st := set mi_charge_timer 0 st in
      let st := set mi_charge_wm 0 st in
      net_req_notification NET_NOTIFY_STAT st
    else
      (* Charge is ongoing *)
      let st := set_bitfield car_doors1 ChargePort true st in
      let st := set mi_charge_timer (u8 (st.[mi_charge_timer] + 1)) st in
      if bool_decide (st.[mi_charge_timer] >= 60) then
        let st := set mi_charge_timer 0 st in
        let st := set car_chargeduration
                    (minutes_wrap (st.[car_chargeduration] + 1)) st in
        if bool_decide (st.[mi_quick_charge] = 0) then
          let st := set mi_charge_wm
                      (u32 (st.[mi_charge_wm]
                            + watts_wrap (st.[car_chargecurrent]
                                          * st.[car_linevoltage]))) st in
          if bool_decide (st.[mi_charge_wm] >= 60000) then
            let st := set car_chargekwh (kwh_wrap (st.[car_chargekwh] + 1)) st in
            set mi_charge_wm (u32 (st.[mi_charge_wm] - 60000)) st
          else st
        else st
      else st
  else if bool_decide (st.[car_chargecurrent] = 0 /\ st.[car_linevoltage] > 100) then
    (* CAN says the car is not charging *)
    let st :=
      if bool_decide (Z.land st.[car_doors1] 0x08 <> 0 /\ st.[car_SOC] = 100) then
        (* Charge has completed *)
        let st := set car_doors1 (Z.land st.[car_doors1] (Z.lnot 0x18)) st in
        let st := set_bitfield car_doors1 ChargePort true st in
        let st := set car_chargemode 0 st in
        let st := set car_chargestate 4 st in
        let st := set car_chargesubstate 3 st in
        let st := net_req_notification NET_NOTIFY_CHARGE st in
        let st := set mi_charge_timer 0 st in
        let st := set mi_charge_wm 0 st in
        net_req_notification NET_NOTIFY_STAT st
      else st in
    set_bitfield car_doors5 Charging12V false st
  else if bool_decide (st.[car_chargecurrent] = 0 /\ st.[car_linevoltage] < 100
                       /\ st.[mi_quick_charge] = 0) then
    (* CAN says the car is not charging *)
    let st :=
      if bool_decide (Z.land st.[car_doors1] 0x08 <> 0) then
        (* Charge has completed / stopped *)
        let st := set car_doors1 (Z.land st.[car_doors1] (Z.lnot 0x18)) st in
        let st := set_bitfield car_doors1 ChargePort true st in
        let st := set car_chargemode 0 st in
        let st :=
          if bool_decide (st.[car_SOC] < 95) then
            (* Assume charge was interrupted *)
            let st := set car_chargestate 21 st in
            let st := set car_chargesubstate 14 st in
            net_req_notification NET_NOTIFY_CHARGE st
          else
            (* Assume charge completed normally *)
            let st := set car_chargestate 4 st in
            let st := set car_chargesubstate 3 st in
            net_req_notification NET_NOTIFY_CHARGE st in
        let st := set mi_charge_timer 0 st in
        let st := set mi_charge_wm 0 st in
        net_req_notification NET_NOTIFY_STAT st
      else st in
    let st := set_bitfield car_doors5 Charging12V false st in
    set_bitfield car_doors1 ChargePort false st
  else st.

Definition vehicle_mitsubishi_ticker1 (st : state) : state :=
  charge_state_determination (range_update (stale_tickers st)).

(** ** [vehicle_mitsubishi_ticker10]: the pack temperature

    The loop adds the 24 slots into a 16-bit [signed int]; the quotient of
    the signed division truncates towards zero. *)
Definition s16 (z : Z) : Z := (z + 2 ^ 15) mod 2 ^ 16 - 2 ^ 15.

Definition vehicle_mitsubishi_ticker10 (st : state) : state :=
  let tbattery :=
    fold_left (fun acc i => s16 (acc + default 0 (mi_batttemps st !! i)))
              (seq 0 24) 0 in
  set car_tbattery (s8 (Z.quot tbattery 24)) st.

(** ** [vehicle_mitsubishi_poll1]: park state, temperatures, speed, odometer *)

Definition vehicle_mitsubishi_poll1 (f : can_frame) (st : state) : state :=
  let st := set mi_candata_timer 60 st in
  if bool_decide (can_id f = 0x285) then
    if bool_decide (data f 6 = 0x0C) then
      (* Car in park *)
      let st := set car_doors1 (Z.lor st.[car_doors1] 0x40) st in
      let st := set car_doors1 (Z.land st.[car_doors1] (Z.lnot 0x80)) st in
      if bool_decide (st.[car_parktime] = 0) then
        let st := set car_parktime (clock_wrap (st.[car_time] - 1)) st in
        net_req_notification NET_NOTIFY_ENV st
      else st
    else if bool_decide (data f 6 = 0x0E) then
      (* Car not in park *)
      let st := set car_doors1 (Z.land st.[car_doors1] (Z.lnot 0x40)) st in
      let st := set car_doors1 (Z.lor st.[car_doors1] 0x80) st in
      if bool_decide (st.[car_parktime] <> 0) then
        let st := set car_parktime 0 st in
        net_req_notification NET_NOTIFY_ENV st
      else st
    else st
  else if bool_decide (can_id f = 0x286) then
    let st := set car_tpem (s8 (s8 (data f 3) - 40)) st in
    set car_stale_temps 60 st
  else if bool_decide (can_id f = 0x298) then
    let st := set car_tmotor (s8 (u8 (data f 3) - 40)) st in
    set car_stale_temps 60 st
  else if bool_decide (can_id f = 0x412) then
    let st :=
      if bool_decide (data f 1 > 200)
      then set car_speed (u8 (u16 (data f 1 - 255))) st
      else set car_speed (u8 (data f 1)) st in
    let odo := u32 (u32 (u32 (Z.shiftl (data f 2) 16) + u32 (Z.shiftl (data f 3) 8)
                         + data f 4) * 10) in
    if bool_decide (st.[can_mileskm] = 75 (* 'K' *))
    then set car_odometer (u32 (MiFromKm odo)) st
    else set car_odometer odo st
  else if bool_decide (can_id f = 0x6e1) then
    let idx := data f 0 in
    if bool_decide (idx >= 1 /\ idx <= 12) then
      let idx := Z.shiftl idx 1 - 2 in
      let st := set_batttemps
                  (<[Z.to_nat idx := s8 (data f 2 - 50)]> (mi_batttemps st)) st in
      let st := set_batttemps
                  (<[Z.to_nat (idx + 1) := s8 (data f 3 - 50)]> (mi_batttemps st)) st in
      set car_stale_temps 60 st
    else st
  else st.

(** ** [vehicle_mitsubishi_initialise]

    The part that acts on the module's variables and on the telemetry
    store.  The configuration of the CAN controller that follows in the
    source (mode request, masks, filters, baud rate, the hooks) acts on
    hardware registers only and is the transceiver's side of the interface. *)
Definition vehicle_mitsubishi_initialise (st : state) : state :=
  let st := set_car_type (<[0%nat := 77 (* 'M' *)]> (car_type st)) st in
  let st := set_car_type (<[1%nat := 73 (* 'I' *)]> (car_type st)) st in
  let st := set_car_type (<[2%nat := 0]> (car_type st)) st in
  let st := set_car_type (<[3%nat := 0]> (car_type st)) st in
  let st := set_car_type (<[4%nat := 0]> (car_type st)) st in
  let st := set car_stale_timer (-1) st in
  let st := set car_time 0 st in
  let st := set mi_candata_timer 0 st in
  let st := set car_SOCalertlimit 10 st in
  let st := set mi_stale_charge 0 st in
  let st := set mi_quick_charge 0 st in
  let st := set mi_qc_counter 3 st in
  let st := set mi_estrange 0 st in
  let st := fold_left (fun st i => set_batttemps (<[i := 0]> (mi_batttemps st)) st)
                      (seq 0 24) st in
  let st := set net_fnbits (Z.lor st.[net_fnbits] NET_FN_INTERNALGPS) st in
  set net_fnbits (Z.lor st.[net_fnbits] NET_FN_12VMONITOR) st.

(** ** The entry points together

    The operations the framework can invoke on the module, and one step of
    the module under each. *)
Inductive operation : Type :=
  | Poll0 (f : can_frame)
  | Poll1 (f : can_frame)
  | Ticker1
  | Ticker10
  | Initialise.

Definition exec (op : operation) (st : state) : state :=
  match op with
  | Poll0 f => vehicle_mitsubishi_poll0 f st
  | Poll1 f => vehicle_mitsubishi_poll1 f st
  | Ticker1 => vehicle_mitsubishi_ticker1 st
  | Ticker10 => vehicle_mitsubishi_ticker10 st
  | Initialise => vehicle_mitsubishi_initialise st
  end.

(** ** Runs and observations

    The state the charge state determination of a tick starts from. *)
Definition before_charge (st : state) : state :=
  range_update (stale_tickers st).

(** A run of ticks with nothing in between. *)
Definition ticks (n : nat) (st : state) : state :=
  Nat.iter n vehicle_mitsubishi_ticker1 st.

(** One second of charging under traffic: a charger frame (0x389) comes
    in, then the tick; one minute is sixty of them, and a charge is a run
    of minutes, one frame standing for the charger signals of each. *)
Definition charge_second (f : can_frame) (st : state) : state :=
  vehicle_mitsubishi_ticker1 (vehicle_mitsubishi_poll0 f st).

Definition charge_minute (f : can_frame) (st : state) : state :=
  Nat.iter 60 (charge_second f) st.

Definition charge_minutes (fs : list can_frame) (st : state) : state :=
  fold_left (fun s f => charge_minute f s) fs st.

End Mitsubishi.

(** The charger signals a frame 0x389 carries, and the watts they make. *)
Definition charger_frame (f : can_frame) : Prop := can_id f = 0x389.
Definition frame_voltage (f : can_frame) : Z := data f 1.
Definition frame_current (f : can_frame) : Z := data f 6 / 10.
Definition frame_watts (f : can_frame) : Z := frame_current f * frame_voltage f.

(** A charger frame under which the charging condition holds. *)
Definition charging_frame (f : can_frame) : Prop :=
  charger_frame f /\ frame_current f <> 0 /\ frame_voltage f > 100.

(** The watt-minutes of a run of minutes. *)
Definition energy (fs : list can_frame) : Z :=
  fold_right (fun f acc => frame_watts f + acc) 0 fs.

(** A charge is going on: the pilot flag is set and it is no quick charge. *)
Definition ongoing (st : state) : Prop :=
  Z.land st.[car_doors1] 0x08 <> 0 /\ st.[mi_quick_charge] = 0.

(** The accumulation of the tick that finds the per-second timer at [t]:
    nothing before the minute is full, then the minute's watts, with one
    kWh carried out of the watt-minutes when they reach 60000. *)
Definition wm_after (t wm watts : Z) : Z :=
  if bool_decide (t + 1 >= 60) then
    let w := u32 (wm + watts_wrap watts) in
    if bool_decide (w >= 60000) then u32 (w - 60000) else w
  else wm.

Definition kwh_after (t wm kwh watts : Z) : Z :=
  if bool_decide (t + 1 >= 60) then
    if bool_decide (u32 (wm + watts_wrap watts) >= 60000)
    then kwh_wrap (kwh + 1) else kwh
  else kwh.

(** The sum of the temperature slots, and a slot that holds a
    [signed char]. *)
Definition sum_temps (l : list Z) : Z := foldr Z.add 0 l.
Definition is_schar (t : Z) : Prop := - 2 ^ 7 <= t < 2 ^ 7.

Definition charger_vars : list var :=
  [mi_candata_timer; car_linevoltage; car_chargecurrent; mi_stale_charge].

(** A run of frames through [vehicle_mitsubishi_poll0]. *)
Definition run_poll0 (fs : list can_frame) (st : state) : state :=
  fold_left (fun s f => vehicle_mitsubishi_poll0 f s) fs st.

(** A range frame confirms a quick charge when it carries the sentinel 255
    while the car stands (speed below 5); any other range frame
    disconfirms it. *)
Definition range_frame (f : can_frame) : Prop := can_id f = 0x346.

Definition sentinel (st : state) (f : can_frame) : Prop :=
  data f 7 = 255 /\ st.[car_speed] < 5.

Definition confirming (st : state) (f : can_frame) : Prop :=
  range_frame f /\ sentinel st f.

Definition disconfirming (st : state) (f : can_frame) : Prop :=
  range_frame f /\ ~ sentinel st f.

(** No two neighbours of the list are equal. *)
Fixpoint alternating (l : list bool) : Prop :=
  match l with
  | a :: ((b :: _) as t) => a <> b /\ alternating t
  | _ => True
  end.

(** Which frames of a run confirm, in order. *)
Definition observations (st : state) (fs : list can_frame) : list bool :=
  map (fun f => bool_decide (sentinel st f)) fs.

(** A run of confirming frames [c] with [n] single dropouts [d] after the
    second: [c; c], then [n] times [d; c], then [c].  Without dropouts it is
    the run of three. *)
Definition with_dropouts (n : nat) (c d : can_frame) : list can_frame :=
  [c; c] ++ concat (replicate n [d; c]) ++ [c].

(** Some three neighbours of the list are all confirming. *)
Fixpoint three_in_a_row (l : list bool) : bool :=
  match l with
  | a :: t =>
      match t with
      | b :: c :: _ => (a && b && c) || three_in_a_row t
      | _ => false
      end
  | [] => false
  end.

(** The variables each part of the one-second ticker writes. *)
Definition written (l : list var) (x : var) : bool := bool_decide (x ∈ l).

Definition stale_vars : list var :=
  [car_doors3; mi_stale_charge; mi_quick_charge; car_linevoltage;
   car_chargecurrent; mi_candata_timer; car_time].

Definition range_vars : list var :=
  [car_estrange; mi_last_good_SOC; mi_last_good_range; car_idealrange].

Definition charge_vars : list var :=
  [car_doors5; car_doors1; car_chargemode; car_chargestate;
   car_chargesubstate; car_chargelimit; car_chargeduration; car_chargekwh;
   mi_charge_timer; mi_charge_wm].

(** ** Concrete states and frames

    Instances of the framework helpers to evaluate with: the rounding
    conversion of kilometres to miles, and an all-ones quotient on a zero
    divisor. *)
Definition MiFromKm_ref (km : Z) : Z := (km * 10 + 8) / 16.
Definition udiv0_ref (_ : Z) : Z := 0xffff.
Definition NET_FN_INTERNALGPS_ref : Z := 0x01.
Definition NET_FN_12VMONITOR_ref : Z := 0x02.

(** Memory as zeroed at power-on, with the 24 temperature slots. *)
Definition power_on : state :=
  mkState (fun _ => 0) (replicate 24 0) [0; 0; 0; 0; 0] [].

(** A standard charge under way at 70 %, in its cell-balancing pause: line
    voltage present, no current. *)
Definition balancing_pause : state :=
  set car_doors1 0x1c (set car_chargestate 1 (set car_chargesubstate 3
    (set car_SOC 70 (set car_linevoltage 230 (set car_chargecurrent 0
      (set mi_stale_charge 30 (set mi_qc_counter 3 power_on))))))).

(** The same charge at 80 % with the line voltage read as exactly 100. *)
Definition voltage_at_100 : state :=
  set car_SOC 80 (set car_linevoltage 100 balancing_pause).

(** A quick charge at 15 % after a drive that left the anchor (80 %, 60). *)
Definition quick_charge_at_15 : state :=
  set mi_quick_charge 1 (set mi_qc_counter 0 (set mi_estrange 255
    (set car_SOC 15 (set mi_last_good_SOC 80 (set mi_last_good_range 60
      (set mi_stale_charge 30 power_on)))))).

(** The same quick charge on a module that never took an anchor: the
    stored pair is as zeroed at power-on. *)
Definition quick_charge_no_anchor : state :=
  set mi_last_good_SOC 0 (set mi_last_good_range 0 quick_charge_at_15).

(** The module some time into its life: a charge has run, the anchor is
    set, temperatures have been seen. *)
Definition in_use : state :=
  set mi_charge_timer 42 (set mi_charge_wm 1234
    (set mi_last_good_SOC 80 (set mi_last_good_range 60
      (set_batttemps (replicate 24 21) power_on)))).

(** Plugged in, not yet charging: 150 V and 16 A just read at 50 %. *)
Definition plugged_in : state :=
  set car_linevoltage 150 (set car_chargecurrent 16 (set car_SOC 50
    (set mi_stale_charge 30 (set mi_qc_counter 3 power_on)))).

(** A standard charge just started, accumulators at zero. *)
Definition charge_started : state :=
  set car_doors1 0x1c (set car_chargestate 1 (set car_chargesubstate 3
    (set mi_qc_counter 3 power_on))).

(** A stationary car in a confirmed quick charge. *)
Definition quick_charging : state :=
  set mi_quick_charge 1 (set mi_qc_counter 0 power_on).

(** The timers some seconds after the last frame. *)
Definition going_quiet : state :=
  set mi_stale_charge 3 (set mi_candata_timer 2 power_on).

(** A quick charge at 50 % with the anchor taken at 50 %, range 40; the
    same with the charge already under way. *)
Definition quick_charge_at_50 : state :=
  set car_SOC 50 (set mi_last_good_SOC 50 (set mi_last_good_range 40
    quick_charge_at_15)).

Definition quick_charge_under_way : state :=
  set car_doors1 0x1c (set car_chargestate 1 quick_charge_at_50).

(** The balancing pause with the charger signals about to go stale, and a
    confirmed quick charge in the same situation. *)
Definition pause_going_stale : state := set mi_stale_charge 1 balancing_pause.
Definition quick_charge_going_stale : state :=
  set mi_stale_charge 1 quick_charging.

(** A charge whose charger has been unplugged at 80 %, and one that has
    filled the pack. *)
Definition unplugged_at_80 : state :=
  set car_SOC 80 (set car_linevoltage 0 balancing_pause).
Definition full_pack : state := set car_SOC 100 balancing_pause.

(** Driving, 100 seconds after start, with a raw range of 80. *)
Definition driving : state :=
  set car_time 100 (set car_doors1 0x80 (set mi_estrange 80
    (set car_SOC 60 power_on))).

Definition soc_raw_150 : can_frame := frame 0x374 [0; 150; 0; 0; 0; 0; 0; 0].
Definition speed_60_odo : can_frame := frame 0x412 [0; 60; 1; 2; 3; 0; 0; 0].
Definition in_park : can_frame := frame 0x285 [0; 0; 0; 0; 0; 0; 0x0C; 0].
Definition not_in_park : can_frame := frame 0x285 [0; 0; 0; 0; 0; 0; 0x0E; 0].
Definition motor_25C : can_frame := frame 0x298 [0; 0; 0; 65; 0; 0; 0; 0].
Definition unknown_123 : can_frame := frame 0x123 [1; 2; 3; 4; 5; 6; 7; 8].

Definition range_255 : can_frame := frame 0x346 [0; 0; 0; 0; 0; 0; 0; 255].
Definition range_100 : can_frame := frame 0x346 [0; 0; 0; 0; 0; 0; 0; 100].
Definition charger_150V_16A : can_frame := frame 0x389 [0; 150; 0; 0; 0; 0; 160; 0].
Definition charger_240V_25A : can_frame := frame 0x389 [0; 240; 0; 0; 0; 0; 250; 0].
Definition bank_3_temps : can_frame := frame 0x6e1 [3; 0; 70; 72; 0; 0; 0; 0].
Definition bank_13_temps : can_frame := frame 0x6e1 [13; 0; 70; 72; 0; 0; 0; 0].

(** ** Reading and writing the store *)

Lemma get_set_eq x v st : (set x v st).[x] = v.
Proof. unfold get, set; simpl. by rewrite decide_True. Qed.

Lemma get_set_ne x y v st : y <> x -> (set x v st).[y] = st.[y].
Proof. intros H. unfold get, set; simpl. by rewrite decide_False. Qed.

Lemma get_notify n st x : (net_req_notification n st).[x] = st.[x].
Proof. reflexivity. Qed.

Lemma get_set_batttemps l st x : (set_batttemps l st).[x] = st.[x].
Proof. reflexivity. Qed.

Lemma get_set_car_type l st x : (set_car_type l st).[x] = st.[x].
Proof. reflexivity. Qed.

Lemma get_set_bitfield_eq x m b st :
  (set_bitfield x m b st).[x]
  = if b then Z.lor st.[x] m else Z.land st.[x] (Z.lnot m).
Proof. unfold set_bitfield. apply get_set_eq. Qed.

Lemma get_set_bitfield_ne x y m b st :
  y <> x -> (set_bitfield x m b st).[y] = st.[y].
Proof. intros H. unfold set_bitfield. by apply get_set_ne. Qed.

Lemma notify_set x v st : net_notify (set x v st) = net_notify st.
Proof. reflexivity. Qed.

Lemma notify_set_bitfield x m b st :
  net_notify (set_bitfield x m b st) = net_notify st.
Proof. reflexivity. Qed.

Lemma notify_req n st :
  net_notify (net_req_notification n st) = net_notify st ++ [n].
Proof. reflexivity. Qed.

Lemma batttemps_set x v st : mi_batttemps (set x v st) = mi_batttemps st.
Proof. reflexivity. Qed.

Lemma batttemps_set_bitfield x m b st :
  mi_batttemps (set_bitfield x m b st) = mi_batttemps st.
Proof. reflexivity. Qed.

Lemma batttemps_req n st :
  mi_batttemps (net_req_notification n st) = mi_batttemps st.
Proof. reflexivity. Qed.

Lemma batttemps_set_batttemps l st : mi_batttemps (set_batttemps l st) = l.
Proof. reflexivity. Qed.

Create Rewrite HintDb store.

#[global] Hint Rewrite get_set_eq get_notify get_set_batttemps get_set_car_type
  get_set_bitfield_eq notify_set notify_set_bitfield notify_req
  batttemps_set batttemps_set_bitfield batttemps_req batttemps_set_batttemps
  : store.
#[global] Hint Rewrite get_set_ne get_set_bitfield_ne using discriminate : store.

(** Simplify the reads, then split on the next branch condition, until no
    branch is left. *)
Ltac branches :=
  repeat (progress (autorewrite with store in * ) || case_bool_decide).

(** Wrap-around is the identity on values of the type. *)
Lemma u8_small z : 0 <= z < 2 ^ 8 -> u8 z = z.
Proof. intros. unfold u8. by apply Z.mod_small. Qed.

Lemma u16_small z : 0 <= z < 2 ^ 16 -> u16 z = z.
Proof. intros. unfold u16. by apply Z.mod_small. Qed.

Lemma u32_small z : 0 <= z < 2 ^ 32 -> u32 z = z.
Proof. intros. unfold u32. by apply Z.mod_small. Qed.

Lemma data_range f i : 0 <= data f i < 2 ^ 8.
Proof.
  unfold data. destruct (can_databuffer f !! i) as [b|]; [|lia].
  pose proof (Byte.to_N_bounded b) as Hb. lia.
Qed.

(** Masking lemmas for the flag bytes. *)
Lemma land_lor_disjoint d m k : Z.land m k = 0 -> Z.land (Z.lor d m) k = Z.land d k.
Proof.
  intros H. rewrite Z.land_lor_distr_l, H. apply Z.lor_0_r.
Qed.

Lemma land_clear_disjoint d m k :
  Z.land m k = 0 -> Z.land (Z.land d (Z.lnot m)) k = Z.land d k.
Proof.
  intros H. apply Z.bits_inj'. intros n Hn.
  rewrite !Z.land_spec, Z.lnot_spec by done.
  assert (Hb : Z.testbit (Z.land m k) n = false) by (rewrite H; apply Z.bits_0).
  rewrite Z.land_spec in Hb.
  destruct (Z.testbit d n), (Z.testbit m n), (Z.testbit k n); done.
Qed.

Lemma land_clear_within d m k :
  Z.land k (Z.lnot m) = 0 -> Z.land (Z.land d (Z.lnot m)) k = 0.
Proof.
  intros H. rewrite <- Z.land_assoc, (Z.land_comm (Z.lnot m)), H.
  apply Z.land_0_r.
Qed.

Lemma land_lor_within d m k : Z.land m k = k -> Z.land (Z.lor d m) k = k.
Proof.
  intros H. apply Z.bits_inj'. intros n Hn.
  assert (Hb : Z.testbit (Z.land m k) n = Z.testbit k n) by (by rewrite H).
  rewrite Z.land_spec in Hb. rewrite Z.land_spec, Z.lor_spec.
  destruct (Z.testbit d n), (Z.testbit m n), (Z.testbit k n); done.
Qed.

(** ** Properties *)

Section Properties.

Set Default Proof Using "Type".

Variable MiFromKm : Z -> Z.
Variable udiv0 : Z -> Z.

Local Abbreviation ticker1 := (vehicle_mitsubishi_ticker1 MiFromKm udiv0).
Local Abbreviation poll0 := vehicle_mitsubishi_poll0.
Local Abbreviation poll1 := (vehicle_mitsubishi_poll1 MiFromKm).
Local Abbreviation ticker10 := vehicle_mitsubishi_ticker10.
Local Abbreviation before_charge := (before_charge MiFromKm udiv0).
Local Abbreviation ticks := (ticks MiFromKm udiv0).
Local Abbreviation charge_second := (charge_second MiFromKm udiv0).
Local Abbreviation charge_minute := (charge_minute MiFromKm udiv0).
Local Abbreviation charge_minutes := (charge_minutes MiFromKm udiv0).

(** *** What each part of the ticker leaves alone *)

(** Peel the writes off a read of a variable that [H] says is not written. *)
Ltac frame H :=
  cbv zeta;
  repeat match goal with
  | |- (if ?b then _ else _).[_] = _ => destruct b
  | |- (net_req_notification _ _).[_] = _ => rewrite get_notify
  | |- (set_bitfield ?y _ _ _).[?x] = _ =>
      rewrite (get_set_bitfield_ne y x) by (intros ->; vm_compute in H; discriminate H)
  | |- (set ?y _ _).[?x] = _ =>
      rewrite (get_set_ne y x) by (intros ->; vm_compute in H; discriminate H)
  end;
  reflexivity.

Lemma stale_tickers_frame st x :
  written stale_vars x = false -> (stale_tickers st).[x] = st.[x].
Proof. intros H. unfold stale_tickers. frame H. Qed.

Lemma range_update_frame st x :
  written range_vars x = false -> (range_update MiFromKm udiv0 st).[x] = st.[x].
Proof. intros H. unfold range_update. frame H. Qed.

Lemma charge_state_frame st x :
  written charge_vars x = false -> (charge_state_determination st).[x] = st.[x].
Proof. intros H. unfold charge_state_determination. frame H. Qed.

Lemma stale_tickers_notify st : net_notify (stale_tickers st) = net_notify st.
Proof. unfold stale_tickers. cbv zeta. repeat case_bool_decide; reflexivity. Qed.

Lemma range_update_notify st :
  net_notify (range_update MiFromKm udiv0 st) = net_notify st.
Proof. unfold range_update. cbv zeta. repeat case_bool_decide; reflexivity. Qed.

Lemma stale_tickers_batttemps st :
  mi_batttemps (stale_tickers st) = mi_batttemps st.
Proof. unfold stale_tickers. cbv zeta. repeat case_bool_decide; reflexivity. Qed.

Lemma range_update_batttemps st :
  mi_batttemps (range_update MiFromKm udiv0 st) = mi_batttemps st.
Proof. unfold range_update. cbv zeta. repeat case_bool_decide; reflexivity. Qed.

Lemma charge_state_batttemps st :
  mi_batttemps (charge_state_determination st) = mi_batttemps st.
Proof.
  unfold charge_state_determination. cbv zeta.
  repeat case_bool_decide; reflexivity.
Qed.

(** Reads through the whole ticker. *)
Lemma ticker1_get_stale st x :
  written range_vars x = false -> written charge_vars x = false ->
  (ticker1 st).[x] = (stale_tickers st).[x].
Proof.
  intros H1 H2. unfold vehicle_mitsubishi_ticker1.
  by rewrite charge_state_frame, range_update_frame.
Qed.

Lemma ticker1_get_range st x :
  written charge_vars x = false ->
  (ticker1 st).[x] = (range_update MiFromKm udiv0 (stale_tickers st)).[x].
Proof.
  intros H. unfold vehicle_mitsubishi_ticker1. by rewrite charge_state_frame.
Qed.

Lemma ticker1_charge st :
  ticker1 st = charge_state_determination (before_charge st).
Proof. unfold vehicle_mitsubishi_ticker1, before_charge. reflexivity. Qed.

Lemma before_charge_stale st x :
  written range_vars x = false -> (before_charge st).[x] = (stale_tickers st).[x].
Proof. apply range_update_frame. Qed.

Lemma before_charge_same st x :
  written range_vars x = false -> written stale_vars x = false ->
  (before_charge st).[x] = st.[x].
Proof.
  intros H1 H2. rewrite before_charge_stale by done. by apply stale_tickers_frame.
Qed.

Lemma before_charge_notify st : net_notify (before_charge st) = net_notify st.
Proof. unfold before_charge. by rewrite range_update_notify, stale_tickers_notify. Qed.

(** Decide the next branch condition from the hypotheses. *)
Ltac decide_branch tac :=
  match goal with
  | |- context [bool_decide ?P] =>
      first [ rewrite (bool_decide_eq_true_2 P) by tac
            | rewrite (bool_decide_eq_false_2 P) by tac ]
  end.

(** Replace the state in front of the charge state determination by a
    variable [s2], keeping what the hypotheses say of its inputs and what it
    shares with the state [st] before the tick. *)
Ltac enter_charge st s2 :=
  rewrite !ticker1_charge;
  let Fsame := fresh "Fsame" in
  let Fnotify := fresh "Fnotify" in
  pose proof (before_charge_same st) as Fsame;
  pose proof (before_charge_notify st) as Fnotify;
  repeat match goal with
  | H : context [(stale_tickers st).[?x]] |- _ =>
      rewrite <- (before_charge_stale st x) in H by reflexivity
  end;
  generalize dependent (before_charge st); intros s2; intros;
  unfold charge_state_determination; cbv zeta;
  repeat decide_branch ltac:(autorewrite with store; intuition lia);
  autorewrite with store;
  rewrite ?Fsame, ?Fnotify by reflexivity.

(** *** The end of a charge *)

(** Current 0 with the line voltage present and the pack full: the charge
    is done. *)
Lemma stop_voltage_present_full st :
  let s := stale_tickers st in
  s.[car_chargecurrent] = 0 -> s.[car_linevoltage] > 100 ->
  s.[mi_quick_charge] <> 1 ->
  Z.land s.[car_doors1] 0x08 <> 0 -> s.[car_SOC] = 100 ->
  let st' := ticker1 st in
  st'.[car_chargestate] = 4 /\ Z.land st'.[car_doors1] 0x18 = 0 /\
  st'.[mi_charge_timer] = 0 /\ st'.[mi_charge_wm] = 0 /\
  net_notify st' = net_notify st ++ [NET_NOTIFY_CHARGE; NET_NOTIFY_STAT].
Proof.
  intros s Hc Hv Hq Hp Hsoc st'. subst s st'. enter_charge st s2.
  repeat split; try reflexivity.
  - unfold ChargePort. rewrite land_lor_disjoint by done.
    by apply land_clear_within.
  - by rewrite <- app_assoc.
Qed.

(** Current 0 with the line voltage below 100 and no quick charge: the
    charge is interrupted below 95 % and done from 95 % on; the charge and
    pilot flags and the charge port flag are cleared, the per-second timer
    and the watt-minute accumulator are reset, and the charge notification
    goes out. *)
Lemma stop_voltage_absent st :
  let s := stale_tickers st in
  s.[car_chargecurrent] = 0 -> s.[car_linevoltage] < 100 ->
  s.[mi_quick_charge] = 0 ->
  Z.land s.[car_doors1] 0x08 <> 0 ->
  let st' := ticker1 st in
  st'.[car_chargestate] = (if bool_decide (st.[car_SOC] < 95) then 21 else 4) /\
  st'.[car_chargesubstate] = (if bool_decide (st.[car_SOC] < 95) then 14 else 3) /\
  Z.land st'.[car_doors1] 0x18 = 0 /\
  Z.land st'.[car_doors1] ChargePort = 0 /\
  st'.[mi_charge_timer] = 0 /\ st'.[mi_charge_wm] = 0 /\
  net_notify st' = net_notify st ++ [NET_NOTIFY_CHARGE; NET_NOTIFY_STAT].
Proof.
  intros s Hc Hv Hq Hp st'. subst s st'. enter_charge st s2.
  assert (D : forall d, Z.land (Z.land (Z.lor (Z.land d (Z.lnot 24)) ChargePort)
                                       (Z.lnot ChargePort)) 24 = 0).
  { intros d. unfold ChargePort. rewrite land_clear_disjoint by done.
    rewrite land_lor_disjoint by done. by apply land_clear_within. }
  assert (P : forall d, Z.land (Z.land d (Z.lnot ChargePort)) ChargePort = 0)
    by (intros d; by apply land_clear_within).
  rewrite <- (Fsame car_SOC) by reflexivity.
  case_bool_decide; autorewrite with store;
    rewrite ?Fnotify, <- ?app_assoc;
    repeat split; try reflexivity; try apply D; apply P.
Qed.

(** C1. At a line voltage of exactly 100 with charge current 0 and no
    quick charge, the tick takes none of the three branches of the charge
    state determination: whatever the state of charge, a charge that was
    active stays reported as before, its flags stay set and nothing is
    notified.  No completion and no interruption is declared at this
    boundary, which the rule for an absent line voltage (at most 100) asks
    for. *)
Theorem C1_boundary_voltage_100_not_handled st :
  let s := stale_tickers st in
  s.[car_chargecurrent] = 0 -> s.[car_linevoltage] = 100 ->
  s.[mi_quick_charge] <> 1 ->
  let st' := ticker1 st in
  st' = before_charge st /\
  st'.[car_chargestate] = st.[car_chargestate] /\
  st'.[car_chargesubstate] = st.[car_chargesubstate] /\
  st'.[car_doors1] = st.[car_doors1] /\
  st'.[mi_charge_timer] = st.[mi_charge_timer] /\
  st'.[mi_charge_wm] = st.[mi_charge_wm] /\
  net_notify st' = net_notify st.
Proof.
  intros s Hc Hv Hq st'. subst s st'.
  assert (E : ticker1 st = before_charge st).
  { rewrite ticker1_charge.
    rewrite <- (before_charge_stale st) in Hc, Hv, Hq by reflexivity.
    generalize dependent (before_charge st). intros s2 Hc Hv Hq.
    unfold charge_state_determination.
    repeat decide_branch ltac:(intuition lia). reflexivity. }
  rewrite E, !before_charge_same, before_charge_notify by reflexivity.
  repeat split; reflexivity.
Qed.

(** *** The range during a quick charge *)

(** Replace the state in front of the range update by a variable [s1] that
    agrees with the state [st] before the tick on what the stale tickers do
    not write. *)
Ltac enter_range st s1 :=
  rewrite !ticker1_get_range by reflexivity;
  let Gsame := fresh "Gsame" in
  pose proof (stale_tickers_frame st) as Gsame;
  generalize dependent (stale_tickers st); intros s1; intros;
  rewrite <- ?(Gsame car_SOC), <- ?(Gsame mi_last_good_SOC),
          <- ?(Gsame mi_last_good_range) in * by reflexivity;
  unfold range_update; cbv zeta.

Lemma quick_charge_range_low st :
  (stale_tickers st).[mi_quick_charge] = 1 -> st.[car_SOC] <= 10 ->
  (ticker1 st).[car_estrange] = 0.
Proof.
  intros Hq Hsoc. enter_range st s1.
  repeat decide_branch ltac:(autorewrite with store; lia).
  by autorewrite with store.
Qed.

(** Above 10 % the published range is the interpolation through the
    anchor that the tick leaves. *)
Lemma quick_charge_range_interpolated st :
  (stale_tickers st).[mi_quick_charge] = 1 -> 10 < st.[car_SOC] ->
  let st' := ticker1 st in
  st'.[car_estrange]
  = udiv16 udiv0 (u16 (u16 st'.[mi_last_good_range] * u16 (st.[car_SOC] - 10)))
                 (u16 (st'.[mi_last_good_SOC] - 10)).
Proof.
  intros Hq Hsoc st'. subst st'. enter_range st s1.
  repeat decide_branch ltac:(autorewrite with store; lia).
  case_bool_decide; repeat case_bool_decide; autorewrite with store;
    try reflexivity; lia.
Qed.

(** C6. During a quick charge the fallback anchor is keyed on the current
    state of charge, not on the stored anchor: with the state of charge
    between 11 and 19 the tick overwrites the anchor by (20, 8) whatever
    the stored anchor is, and from 20 on it keeps the stored anchor, also
    one whose state of charge is below 20. *)
Theorem C6_fallback_keyed_on_current_SOC st :
  (stale_tickers st).[mi_quick_charge] = 1 ->
  let st' := ticker1 st in
  (10 < st.[car_SOC] < 20 ->
     st'.[mi_last_good_SOC] = 20 /\ st'.[mi_last_good_range] = 8 /\
     st'.[car_estrange] = 8 * (st.[car_SOC] - 10) / 10) /\
  (20 <= st.[car_SOC] ->
     st'.[mi_last_good_SOC] = st.[mi_last_good_SOC] /\
     st'.[mi_last_good_range] = st.[mi_last_good_range]).
Proof.
  intros Hq st'. subst st'. enter_range st s1.
  decide_branch ltac:(autorewrite with store; lia).
  split; intros Hsoc;
    repeat decide_branch ltac:(autorewrite with store; lia);
    autorewrite with store; try done.
  repeat split; try reflexivity.
  unfold udiv16. rewrite bool_decide_eq_false_2 by done.
  change (u16 (20 - 10)) with 10. change (u16 8) with 8.
  rewrite (u16_small (s1.[car_SOC] - 10)) by lia.
  rewrite u16_small by lia. reflexivity.
Qed.

Section Initialisation.

Variables NET_FN_INTERNALGPS NET_FN_12VMONITOR : Z.

Local Abbreviation initialise :=
  (vehicle_mitsubishi_initialise NET_FN_INTERNALGPS NET_FN_12VMONITOR).

(** *** Who writes the last-good anchor *)

Lemma clear_batttemps_get (l : list nat) st x :
  (fold_left (fun st i => set_batttemps (<[i := 0]> (mi_batttemps st)) st) l st).[x]
  = st.[x].
Proof. revert st. induction l as [|i l IH]; intros st; simpl; [done|]. by rewrite IH. Qed.

Lemma poll0_anchor f st x :
  x = mi_last_good_SOC \/ x = mi_last_good_range -> (poll0 f st).[x] = st.[x].
Proof.
  intros [-> | ->]; unfold vehicle_mitsubishi_poll0; cbv zeta;
    repeat case_bool_decide; by autorewrite with store.
Qed.

Lemma poll1_anchor f st x :
  x = mi_last_good_SOC \/ x = mi_last_good_range -> (poll1 f st).[x] = st.[x].
Proof.
  intros [-> | ->]; unfold vehicle_mitsubishi_poll1; cbv zeta;
    repeat case_bool_decide; by autorewrite with store.
Qed.

Lemma initialise_anchor st x :
  x = mi_last_good_SOC \/ x = mi_last_good_range -> (initialise st).[x] = st.[x].
Proof.
  intros [-> | ->]; unfold vehicle_mitsubishi_initialise; cbv zeta;
    autorewrite with store; rewrite clear_batttemps_get;
    by autorewrite with store.
Qed.

(** C7, amended.  Whatever the operation, exactly one of three things
    happens to the anchor pair.  The operation is the one-second tick, the
    quick-charge flag is off when its range update runs, the state of
    charge is at least 20 and the range published by the tick at least 5:
    the anchor becomes that state of charge and that range, cut to a byte.
    Or the operation is the tick, the flag is on and the state of charge is
    above 10 and below 20: the anchor becomes the fallback (20, 8).  Or
    neither condition holds and the anchor pair is left as it was.  No
    operation clears it. *)
Theorem C7_anchor_writes op st :
  let st' := exec MiFromKm udiv0 NET_FN_INTERNALGPS NET_FN_12VMONITOR op st in
  let quick := (stale_tickers st).[mi_quick_charge] = 1 in
  (op = Ticker1 /\ ~ quick /\
   st.[car_SOC] >= 20 /\ st'.[car_estrange] >= 5 /\
   st'.[mi_last_good_SOC] = st.[car_SOC] /\
   st'.[mi_last_good_range] = u8 st'.[car_estrange])
  \/ (op = Ticker1 /\ quick /\
      10 < st.[car_SOC] < 20 /\
      st'.[mi_last_good_SOC] = 20 /\ st'.[mi_last_good_range] = 8)
  \/ (~ (op = Ticker1 /\ ~ quick /\
         st.[car_SOC] >= 20 /\ st'.[car_estrange] >= 5) /\
      ~ (op = Ticker1 /\ quick /\ 10 < st.[car_SOC] < 20) /\
      st'.[mi_last_good_SOC] = st.[mi_last_good_SOC] /\
      st'.[mi_last_good_range] = st.[mi_last_good_range]).
Proof.
  intros st' quick. subst st' quick.
  destruct op as [f|f| | |]; cbn [exec].
  - right; right. rewrite (poll0_anchor f st mi_last_good_SOC), (poll0_anchor f st mi_last_good_range)
      by auto.
    split; [intros [? _]; discriminate|].
    split; [intros [? _]; discriminate|]. split; reflexivity.
  - right; right. rewrite (poll1_anchor f st mi_last_good_SOC), (poll1_anchor f st mi_last_good_range)
      by auto.
    split; [intros [? _]; discriminate|].
    split; [intros [? _]; discriminate|]. split; reflexivity.
  - enter_range st s1.
    destruct (decide (s1.[mi_quick_charge] = 1)) as [Hq|Hq].
    + rewrite (bool_decide_eq_true_2 _ Hq).
      destruct (decide (s1.[car_SOC] <= 10)) as [Hs|Hs].
      * right; right. repeat decide_branch ltac:(autorewrite with store; lia).
        autorewrite with store.
        split; [intros (_ & Hn & _); contradiction|].
        split; [intros (_ & _ & Hn); lia|]. split; reflexivity.
      * rewrite !(bool_decide_eq_false_2 (s1.[car_SOC] <= 10)) by done.
        destruct (decide (s1.[car_SOC] < 20)) as [Hs'|Hs'].
        -- right; left.
           repeat decide_branch ltac:(autorewrite with store; lia).
           autorewrite with store. repeat split; try done; lia.
        -- right; right.
           repeat decide_branch ltac:(autorewrite with store; lia).
           autorewrite with store.
           split; [intros (_ & Hn & _); contradiction|].
           split; [intros (_ & _ & Hn); lia|]. split; reflexivity.
    + rewrite (bool_decide_eq_false_2 _ Hq).
      repeat case_bool_decide; autorewrite with store in *;
        first [ left; repeat split; (reflexivity || lia || done)
              | right; right;
                split; [intros (_ & _ & Hn1 & Hn2); tauto|];
                split; [intros (_ & Hn & _); contradiction|];
                split; reflexivity ].
  - right; right. unfold vehicle_mitsubishi_ticker10. autorewrite with store.
    split; [intros [? _]; discriminate|].
    split; [intros [? _]; discriminate|]. split; reflexivity.
  - right; right. rewrite (initialise_anchor st mi_last_good_SOC), (initialise_anchor st mi_last_good_range)
      by auto.
    split; [intros [? _]; discriminate|].
    split; [intros [? _]; discriminate|]. split; reflexivity.
Qed.

(** *** Initialisation *)

Lemma clear_batttemps_list (l : list nat) st :
  mi_batttemps
    (fold_left (fun st i => set_batttemps (<[i := 0]> (mi_batttemps st)) st) l st)
  = fold_left (fun t i => <[i := 0]> t) l (mi_batttemps st).
Proof. revert st. induction l as [|i l IH]; intros st; simpl; [done|]. by rewrite IH. Qed.

Lemma clear_24_slots (t : list Z) :
  length t = 24%nat ->
  fold_left (fun t i => <[i := 0]> t) (seq 0 24) t = replicate 24 0.
Proof.
  intros H.
  do 24 (destruct t as [|? t]; [discriminate H|]).
  destruct t; [reflexivity | discriminate H].
Qed.

(** C8, amended.  After initialisation the bus-activity timer, the charge
    stale timer, the quick-charge flag and the raw range reading are 0, the
    quick-charge filter counter is at its ceiling 3 and all 24 temperature
    slots are 0.  The per-second charge timer, the watt-minute accumulator
    and the last-good anchor are not written: they keep what they held. *)
Theorem C8_initialise_resets st :
  length (mi_batttemps st) = 24%nat ->
  let st' :=
    vehicle_mitsubishi_initialise NET_FN_INTERNALGPS NET_FN_12VMONITOR st in
  st'.[mi_candata_timer] = 0 /\ st'.[mi_stale_charge] = 0 /\
  st'.[mi_quick_charge] = 0 /\ st'.[mi_estrange] = 0 /\
  st'.[mi_qc_counter] = 3 /\
  mi_batttemps st' = replicate 24 0 /\
  st'.[mi_charge_timer] = st.[mi_charge_timer] /\
  st'.[mi_charge_wm] = st.[mi_charge_wm] /\
  st'.[mi_last_good_SOC] = st.[mi_last_good_SOC] /\
  st'.[mi_last_good_range] = st.[mi_last_good_range].
Proof.
  intros Hlen st'. subst st'. unfold vehicle_mitsubishi_initialise. cbv zeta.
  autorewrite with store. rewrite !clear_batttemps_get, clear_batttemps_list.
  autorewrite with store. rewrite clear_24_slots by done.
  repeat split; reflexivity.
Qed.

End Initialisation.

(** *** The battery temperature frame *)

(** C10. A frame 0x6e1 whose bank number (byte 0) is outside 1..12 leaves
    the temperature buffer and the temperature stale timer as they were.
    With the bank number [b] in 1..12, the slots [2b-2] and [2b-1], both
    below 24, take the two temperatures of the frame, and every other slot
    keeps its value. *)
Theorem C10_battery_temperature_frame f st :
  can_id f = 0x6e1 ->
  length (mi_batttemps st) = 24%nat ->
  let b := data f 0 in
  let st' := poll1 f st in
  (~ (1 <= b <= 12) ->
     mi_batttemps st' = mi_batttemps st /\
     st'.[car_stale_temps] = st.[car_stale_temps]) /\
  (1 <= b <= 12 ->
     let i := Z.to_nat (2 * b - 2) in
     (i + 1 < 24)%nat /\
     mi_batttemps st' !! i = Some (s8 (data f 2 - 50)) /\
     mi_batttemps st' !! (i + 1)%nat = Some (s8 (data f 3 - 50)) /\
     (forall j, j <> i -> j <> (i + 1)%nat ->
                mi_batttemps st' !! j = mi_batttemps st !! j) /\
     length (mi_batttemps st') = 24%nat /\
     st'.[car_stale_temps] = 60).
Proof.
  intros Hid Hlen b st'. subst b st'.
  unfold vehicle_mitsubishi_poll1. cbv zeta.
  rewrite Hid.
  repeat (rewrite bool_decide_eq_false_2 by done).
  rewrite (bool_decide_eq_true_2 (1761 = 1761)) by done.
  split; intros Hb.
  - rewrite bool_decide_eq_false_2 by lia.
    autorewrite with store. split; reflexivity.
  - rewrite bool_decide_eq_true_2 by lia.
    autorewrite with store.
    rewrite Z.shiftl_mul_pow2 by lia.
    replace (data f 0 * 2 ^ 1 - 2) with (2 * data f 0 - 2) by lia.
    replace (Z.to_nat (2 * data f 0 - 2 + 1))
      with (Z.to_nat (2 * data f 0 - 2) + 1)%nat by lia.
    set (i := Z.to_nat (2 * data f 0 - 2)).
    assert (Hi : (i + 1 < 24)%nat) by lia.
    split; [exact Hi|].
    split.
    { rewrite list_lookup_insert_ne by lia.
      apply list_lookup_insert_eq. lia. }
    split.
    { apply list_lookup_insert_eq. rewrite length_insert. lia. }
    split.
    { intros j Hj1 Hj2. by rewrite !list_lookup_insert_ne. }
    split; [by rewrite !length_insert | reflexivity].
Qed.

(** *** The staleness timers *)

Lemma ticks_0 st : ticks 0 st = st.
Proof. reflexivity. Qed.

Lemma ticks_S n st : ticks (S n) st = ticker1 (ticks n st).
Proof. unfold ticks. apply Nat.iter_succ. Qed.

Ltac stale_cases :=
  unfold stale_tickers; cbv zeta; branches;
  rewrite ?u8_small in * by lia; try lia; try reflexivity.

Lemma stale_charge_timer st :
  0 <= st.[mi_stale_charge] < 2 ^ 8 ->
  (stale_tickers st).[mi_stale_charge] = Z.max 0 (st.[mi_stale_charge] - 1).
Proof. intros H. stale_cases. Qed.

Lemma stale_candata_timer st :
  0 <= st.[mi_candata_timer] < 2 ^ 8 ->
  (stale_tickers st).[mi_candata_timer] = Z.max 0 (st.[mi_candata_timer] - 1).
Proof. intros H. stale_cases. Qed.

Lemma stale_charge_fires st :
  st.[mi_stale_charge] = 1 ->
  (stale_tickers st).[mi_quick_charge] = 0 /\
  (stale_tickers st).[car_linevoltage] = 0 /\
  (stale_tickers st).[car_chargecurrent] = 0.
Proof.
  intros H. repeat split; stale_cases;
    match goal with H' : u8 _ <> 0 |- _ => rewrite H in H'; by vm_compute in H' end.
Qed.

Lemma stale_charge_quiet st :
  0 <= st.[mi_stale_charge] < 2 ^ 8 -> st.[mi_stale_charge] <> 1 ->
  (stale_tickers st).[mi_quick_charge] = st.[mi_quick_charge] /\
  (stale_tickers st).[car_linevoltage] = st.[car_linevoltage] /\
  (stale_tickers st).[car_chargecurrent] = st.[car_chargecurrent].
Proof. intros H H1. repeat split; stale_cases. Qed.

Lemma stale_candata_asleep st :
  st.[mi_candata_timer] = 1 -> Z.land (stale_tickers st).[car_doors3] 0x01 = 0.
Proof.
  intros H. stale_cases; try (by apply land_clear_within);
    match goal with H' : u8 _ <> 0 |- _ => rewrite H in H'; by vm_compute in H' end.
Qed.

Lemma stale_candata_awake st :
  0 <= st.[mi_candata_timer] < 2 ^ 8 -> st.[mi_candata_timer] > 1 ->
  Z.land (stale_tickers st).[car_doors3] 0x01 = 1.
Proof. intros H H1. stale_cases; by apply land_lor_within. Qed.

Lemma stale_candata_idle st :
  st.[mi_candata_timer] = 0 ->
  Z.land (stale_tickers st).[car_doors3] 0x01 = Z.land st.[car_doors3] 0x01.
Proof.
  intros H. stale_cases; unfold CoolingPump;
    by rewrite ?land_lor_disjoint, ?land_clear_disjoint by done.
Qed.

Lemma ticks_timers n st :
  0 <= st.[mi_stale_charge] < 2 ^ 8 ->
  0 <= st.[mi_candata_timer] < 2 ^ 8 ->
  (ticks n st).[mi_stale_charge] = Z.max 0 (st.[mi_stale_charge] - Z.of_nat n) /\
  (ticks n st).[mi_candata_timer] = Z.max 0 (st.[mi_candata_timer] - Z.of_nat n).
Proof.
  intros H1 H2. induction n as [|n [IH1 IH2]].
  - rewrite ticks_0. lia.
  - rewrite ticks_S, !ticker1_get_stale by reflexivity.
    rewrite stale_charge_timer, stale_candata_timer by lia. lia.
Qed.

(** C5. In a run of ticks with no reset in between, each of the two
    module-owned staleness timers stands after [n] ticks at its start value
    less [n], or at 0 once that is used up; each further tick takes 1 off
    while the timer is positive and leaves 0 at 0.  The charge stale action
    (quick-charge off, line voltage and charge current 0) happens on the
    tick that finds the timer at 1, which is tick number [start] of the
    run, and on every other tick the three values are left as they are; the
    bus-activity timer marks the vehicle asleep on the tick that finds it
    at 1, awake while it is above 1, and leaves the flag alone once at
    0. *)
Theorem C5_staleness_timers st n :
  0 <= st.[mi_stale_charge] < 2 ^ 8 ->
  0 <= st.[mi_candata_timer] < 2 ^ 8 ->
  let s := ticks n st in
  let s' := ticker1 s in
  s.[mi_stale_charge] = Z.max 0 (st.[mi_stale_charge] - Z.of_nat n) /\
  s.[mi_candata_timer] = Z.max 0 (st.[mi_candata_timer] - Z.of_nat n) /\
  s'.[mi_stale_charge] = Z.max 0 (s.[mi_stale_charge] - 1) /\
  s'.[mi_candata_timer] = Z.max 0 (s.[mi_candata_timer] - 1) /\
  (s.[mi_stale_charge] = 1 <-> Z.of_nat n + 1 = st.[mi_stale_charge]) /\
  (s.[mi_stale_charge] = 1 ->
     s'.[mi_quick_charge] = 0 /\ s'.[car_linevoltage] = 0 /\
     s'.[car_chargecurrent] = 0) /\
  (s.[mi_stale_charge] <> 1 ->
     s'.[mi_quick_charge] = s.[mi_quick_charge] /\
     s'.[car_linevoltage] = s.[car_linevoltage] /\
     s'.[car_chargecurrent] = s.[car_chargecurrent]) /\
  (s.[mi_candata_timer] = 1 <-> Z.of_nat n + 1 = st.[mi_candata_timer]) /\
  (s.[mi_candata_timer] = 1 -> Z.land s'.[car_doors3] 0x01 = 0) /\
  (s.[mi_candata_timer] > 1 -> Z.land s'.[car_doors3] 0x01 = 1) /\
  (s.[mi_candata_timer] = 0 ->
     Z.land s'.[car_doors3] 0x01 = Z.land s.[car_doors3] 0x01).
Proof.
  intros H1 H2 s s'.
  destruct (ticks_timers n st H1 H2) as [T1 T2]. fold s in T1, T2.
  assert (R1 : 0 <= s.[mi_stale_charge] < 2 ^ 8) by lia.
  assert (R2 : 0 <= s.[mi_candata_timer] < 2 ^ 8) by lia.
  clearbody s. subst s'.
  rewrite !ticker1_get_stale by reflexivity.
  split; [exact T1|]. split; [exact T2|].
  split; [by apply stale_charge_timer|].
  split; [by apply stale_candata_timer|].
  split; [lia|].
  split; [apply stale_charge_fires|].
  split; [by apply stale_charge_quiet|].
  split; [lia|].
  split; [apply stale_candata_asleep|].
  split; [by apply stale_candata_awake|].
  apply stale_candata_idle.
Qed.

(** *** The cell-balancing pause *)

(** C9, amended.  On a tick entered with charge current 0, line voltage
    above 100, quick-charge off, the pilot flag of an earlier charge set, a
    state of charge below 100 (the cell-balancing pause) and the charge
    stale timer not at 1, so that the charger signals do not expire on this
    tick: the charge state determination does nothing but clear the 12 V
    charging flag.  The charge state, the substate, the mode, the limit, the
    duration, the kWh, the watt-minute remainder, the per-second timer and
    the whole of [car_doors1] are as before the tick and nothing is
    notified; of [car_doors5] the 12 V charging flag is cleared and every
    other bit is kept. *)
Theorem C9_balancing_pause_keeps_charge st :
  st.[car_chargecurrent] = 0 ->
  st.[car_linevoltage] > 100 ->
  st.[mi_quick_charge] <> 1 ->
  Z.land st.[car_doors1] 0x08 <> 0 ->
  st.[car_SOC] < 100 ->
  0 <= st.[mi_stale_charge] < 2 ^ 8 ->
  st.[mi_stale_charge] <> 1 ->
  let st' := ticker1 st in
  st' = set_bitfield car_doors5 Charging12V false (before_charge st) /\
  st'.[car_chargestate] = st.[car_chargestate] /\
  st'.[car_chargesubstate] = st.[car_chargesubstate] /\
  st'.[car_chargemode] = st.[car_chargemode] /\
  st'.[car_chargelimit] = st.[car_chargelimit] /\
  st'.[car_chargeduration] = st.[car_chargeduration] /\
  st'.[car_chargekwh] = st.[car_chargekwh] /\
  st'.[mi_charge_wm] = st.[mi_charge_wm] /\
  st'.[mi_charge_timer] = st.[mi_charge_timer] /\
  st'.[car_doors1] = st.[car_doors1] /\
  net_notify st' = net_notify st /\
  st'.[car_doors5] = Z.land st.[car_doors5] (Z.lnot Charging12V) /\
  Z.land st'.[car_doors5] Charging12V = 0.
Proof.
  intros Hc Hv Hq Hp Hsoc Hr Ht st'. subst st'.
  destruct (stale_charge_quiet st Hr Ht) as (Q & V & C).
  rewrite <- Q in Hq. rewrite <- V in Hv. rewrite <- C in Hc.
  rewrite <- (stale_tickers_frame st car_doors1) in Hp by reflexivity.
  rewrite <- (stale_tickers_frame st car_SOC) in Hsoc by reflexivity.
  clear Q V C Hr Ht.
  assert (E : ticker1 st
              = set_bitfield car_doors5 Charging12V false (before_charge st)).
  { rewrite ticker1_charge.
    rewrite <- (before_charge_stale st) in Hc, Hv, Hq, Hp, Hsoc by reflexivity.
    generalize dependent (before_charge st). intros s2 Hc Hv Hq Hp Hsoc.
    unfold charge_state_determination. cbv zeta.
    repeat decide_branch ltac:(intuition lia). reflexivity. }
  split; [exact E|]. clear E.
  enter_charge st s2.
  repeat split; try reflexivity.
  by apply land_clear_within.
Qed.

(** *** The quick-charge filter *)

Lemma run_poll0_nil st : run_poll0 [] st = st.
Proof. reflexivity. Qed.

Lemma run_poll0_cons f fs st : run_poll0 (f :: fs) st = run_poll0 fs (poll0 f st).
Proof. reflexivity. Qed.

Ltac poll0_range f Hid :=
  unfold vehicle_mitsubishi_poll0; cbv zeta;
  rewrite (bool_decide_eq_true_2 _ Hid);
  autorewrite with store;
  rewrite (u16_small (data f 7)) by (pose proof (data_range f 7); lia).

Lemma poll0_speed f st : (poll0 f st).[car_speed] = st.[car_speed].
Proof.
  unfold vehicle_mitsubishi_poll0; cbv zeta.
  repeat case_bool_decide; by autorewrite with store.
Qed.

(** One confirming frame: the counter goes down, not below 0, and the flag
    is set once the counter is at 0. *)
Lemma poll0_confirming f st :
  confirming st f -> 0 <= st.[mi_qc_counter] <= 3 ->
  (poll0 f st).[mi_qc_counter] = Z.max 0 (st.[mi_qc_counter] - 1) /\
  (poll0 f st).[mi_quick_charge]
  = (if bool_decide (st.[mi_qc_counter] <= 1) then 1 else st.[mi_quick_charge]).
Proof.
  intros [Hid [Hd Hs]] Hc. unfold range_frame in Hid.
  poll0_range f Hid.
  rewrite (bool_decide_eq_true_2 (data f 7 = 255 /\ st.[car_speed] < 5)) by done.
  repeat case_bool_decide; autorewrite with store in *;
    rewrite ?u8_small in * by lia; split; (reflexivity || lia).
Qed.

(** One disconfirming frame: the counter goes up, not above 3, and the flag
    is cleared only when the counter already stands at 3. *)
Lemma poll0_disconfirming f st :
  disconfirming st f -> 0 <= st.[mi_qc_counter] <= 3 ->
  (poll0 f st).[mi_qc_counter] = Z.min 3 (st.[mi_qc_counter] + 1) /\
  (poll0 f st).[mi_quick_charge]
  = (if bool_decide (st.[mi_qc_counter] < 3) then st.[mi_quick_charge] else 0).
Proof.
  intros [Hid Hn] Hc. unfold range_frame in Hid. unfold sentinel in Hn.
  poll0_range f Hid.
  rewrite (bool_decide_eq_false_2 (data f 7 = 255 /\ st.[car_speed] < 5)) by done.
  repeat case_bool_decide; autorewrite with store in *;
    rewrite ?u8_small in * by lia; split; (reflexivity || lia).
Qed.

Lemma confirming_after f g st : confirming st f -> confirming (poll0 g st) f.
Proof. unfold confirming, sentinel. by rewrite poll0_speed. Qed.

Lemma disconfirming_after f g st :
  disconfirming st f -> disconfirming (poll0 g st) f.
Proof. unfold disconfirming, sentinel. by rewrite poll0_speed. Qed.

Lemma observations_after g st fs :
  observations (poll0 g st) fs = observations st fs.
Proof. unfold observations, sentinel. by rewrite poll0_speed. Qed.

(** Entering: from the counter at 3 the third confirming frame in a row
    sets the flag, the first two do not. *)
Lemma quick_charge_enters st f1 f2 f3 :
  st.[mi_qc_counter] = 3 -> st.[mi_quick_charge] = 0 ->
  confirming st f1 -> confirming st f2 -> confirming st f3 ->
  (run_poll0 [f1] st).[mi_quick_charge] = 0 /\
  (run_poll0 [f1; f2] st).[mi_quick_charge] = 0 /\
  (run_poll0 [f1; f2; f3] st).[mi_quick_charge] = 1.
Proof.
  intros Hc Hq C1 C2 C3. rewrite !run_poll0_cons, !run_poll0_nil.
  destruct (poll0_confirming f1 st C1 ltac:(lia)) as [c1 q1].
  rewrite Hc, Hq in *. rewrite bool_decide_eq_false_2 in q1 by lia.
  apply (confirming_after f2 f1) in C2.
  destruct (poll0_confirming f2 _ C2 ltac:(lia)) as [c2 q2].
  rewrite c1, q1 in *. rewrite bool_decide_eq_false_2 in q2 by lia.
  apply (confirming_after f3 f1), (confirming_after f3 f2) in C3.
  destruct (poll0_confirming f3 _ C3 ltac:(lia)) as [c3 q3].
  rewrite c2 in *. rewrite bool_decide_eq_true_2 in q3 by lia.
  done.
Qed.

(** Leaving: from the counter at 0 three disconfirming frames in a row only
    bring the counter to 3; it is the fourth that clears the flag. *)
Lemma quick_charge_leaves st f1 f2 f3 f4 :
  st.[mi_qc_counter] = 0 -> st.[mi_quick_charge] = 1 ->
  disconfirming st f1 -> disconfirming st f2 ->
  disconfirming st f3 -> disconfirming st f4 ->
  (run_poll0 [f1] st).[mi_quick_charge] = 1 /\
  (run_poll0 [f1; f2] st).[mi_quick_charge] = 1 /\
  (run_poll0 [f1; f2; f3] st).[mi_quick_charge] = 1 /\
  (run_poll0 [f1; f2; f3] st).[mi_qc_counter] = 3 /\
  (run_poll0 [f1; f2; f3; f4] st).[mi_quick_charge] = 0.
Proof.
  intros Hc Hq D1 D2 D3 D4. rewrite !run_poll0_cons, !run_poll0_nil.
  destruct (poll0_disconfirming f1 st D1 ltac:(lia)) as [c1 q1].
  rewrite Hc, Hq in *. rewrite bool_decide_eq_true_2 in q1 by lia.
  apply (disconfirming_after f2 f1) in D2.
  destruct (poll0_disconfirming f2 _ D2 ltac:(lia)) as [c2 q2].
  rewrite c1, q1 in *. rewrite bool_decide_eq_true_2 in q2 by lia.
  apply (disconfirming_after f3 f1), (disconfirming_after f3 f2) in D3.
  destruct (poll0_disconfirming f3 _ D3 ltac:(lia)) as [c3 q3].
  rewrite c2, q2 in *. rewrite bool_decide_eq_true_2 in q3 by lia.
  apply (disconfirming_after f4 f1), (disconfirming_after f4 f2),
    (disconfirming_after f4 f3) in D4.
  destruct (poll0_disconfirming f4 _ D4 ltac:(lia)) as [c4 q4].
  rewrite c3 in *. rewrite bool_decide_eq_false_2 in q4 by lia.
  done.
Qed.

Lemma alternating_tail a l : alternating (a :: l) -> alternating l.
Proof. destruct l; simpl; tauto. Qed.

Lemma alternating_take k l : alternating l -> alternating (take k l).
Proof.
  revert l. induction k as [|k IH]; intros [|a l] H; simpl; try done.
  destruct l as [|b l]; [by destruct k|].
  destruct H as [Hab H]. specialize (IH (b :: l) H).
  destruct k; simpl in *; [done|]. by split.
Qed.

(** From the disconfirmed state alternating frames move the counter
    between 3 and 2 only. *)
Lemma alternating_stays_off fs : forall st,
  Forall range_frame fs -> alternating (observations st fs) ->
  st.[mi_quick_charge] = 0 ->
  st.[mi_qc_counter] = 3
  \/ (st.[mi_qc_counter] = 2 /\ head (observations st fs) <> Some true) ->
  (run_poll0 fs st).[mi_quick_charge] = 0.
Proof.
  induction fs as [|f fs IH]; intros st Hr Ha Hq Hc; [done|].
  rewrite run_poll0_cons. apply Forall_cons in Hr as [Hf Hr].
  cbn [observations map] in Ha, Hc. fold (observations st fs) in Ha.
  destruct (decide (sentinel st f)) as [Hs|Hs].
  - assert (C : st.[mi_qc_counter] = 3).
    { destruct Hc as [?|[_ Hc]]; [done|]. cbn [head] in Hc.
      by rewrite bool_decide_eq_true_2 in Hc. }
    destruct (poll0_confirming f st (conj Hf Hs) ltac:(lia)) as [c1 q1].
    rewrite bool_decide_eq_false_2 in q1 by lia.
    apply IH; rewrite ?observations_after; try done.
    + by apply alternating_tail in Ha.
    + lia.
    + right. split; [lia|].
      rewrite bool_decide_eq_true_2 in Ha by done.
      destruct fs as [|g fs]; [done|].
      cbn [observations map head] in *. destruct Ha as [Ha _].
      intros [= E]. by rewrite E in Ha.
  - destruct (poll0_disconfirming f st (conj Hf Hs) ltac:(lia)) as [c1 q1].
    apply IH; rewrite ?observations_after; try done.
    + by apply alternating_tail in Ha.
    + rewrite q1. case_bool_decide; done.
    + left. lia.
Qed.

(** From the confirmed state alternating frames move the counter between
    0 and 1 only. *)
Lemma alternating_stays_on fs : forall st,
  Forall range_frame fs -> alternating (observations st fs) ->
  st.[mi_quick_charge] = 1 ->
  st.[mi_qc_counter] = 0
  \/ (st.[mi_qc_counter] = 1 /\ head (observations st fs) <> Some false) ->
  (run_poll0 fs st).[mi_quick_charge] = 1.
Proof.
  induction fs as [|f fs IH]; intros st Hr Ha Hq Hc; [done|].
  rewrite run_poll0_cons. apply Forall_cons in Hr as [Hf Hr].
  cbn [observations map] in Ha, Hc. fold (observations st fs) in Ha.
  destruct (decide (sentinel st f)) as [Hs|Hs].
  - destruct (poll0_confirming f st (conj Hf Hs) ltac:(lia)) as [c1 q1].
    apply IH; rewrite ?observations_after; try done.
    + by apply alternating_tail in Ha.
    + rewrite q1. case_bool_decide; done.
    + left. lia.
  - assert (C : st.[mi_qc_counter] = 0).
    { destruct Hc as [?|[_ Hc]]; [done|]. cbn [head] in Hc.
      by rewrite bool_decide_eq_false_2 in Hc. }
    destruct (poll0_disconfirming f st (conj Hf Hs) ltac:(lia)) as [c1 q1].
    rewrite bool_decide_eq_true_2 in q1 by lia.
    apply IH; rewrite ?observations_after; try done.
    + by apply alternating_tail in Ha.
    + lia.
    + right. split; [lia|].
      rewrite bool_decide_eq_false_2 in Ha by done.
      destruct fs as [|g fs]; [done|].
      cbn [observations map head] in *. destruct Ha as [Ha _].
      intros [= E]. by rewrite E in Ha.
Qed.

(** Alternating single frames never flip the flag from either rest state,
    at any point of the run. *)
Lemma alternating_never_flips st fs k :
  Forall range_frame fs -> alternating (observations st fs) ->
  (st.[mi_qc_counter] = 3 /\ st.[mi_quick_charge] = 0)
  \/ (st.[mi_qc_counter] = 0 /\ st.[mi_quick_charge] = 1) ->
  (run_poll0 (take k fs) st).[mi_quick_charge] = st.[mi_quick_charge].
Proof.
  intros Hr Ha Hst.
  assert (Hr' : Forall range_frame (take k fs)) by (by apply Forall_take).
  assert (Ha' : alternating (observations st (take k fs))).
  { unfold observations in *. rewrite <- firstn_map. by apply alternating_take. }
  destruct Hst as [[Hc Hq]|[Hc Hq]]; rewrite Hq.
  - apply alternating_stays_off; auto.
  - apply alternating_stays_on; auto.
Qed.

(** A dropout is absorbed: with the counter at 1 and the flag off, a
    disconfirming frame followed by a confirming one brings the counter
    back to 1, and the flag stays off all along. *)
Lemma dropouts_absorbed c d n : forall st,
  st.[mi_qc_counter] = 1 -> st.[mi_quick_charge] = 0 ->
  confirming st c -> disconfirming st d ->
  (run_poll0 (concat (replicate n [d; c])) st).[mi_qc_counter] = 1 /\
  (run_poll0 (concat (replicate n [d; c])) st).[mi_quick_charge] = 0 /\
  confirming (run_poll0 (concat (replicate n [d; c])) st) c /\
  forall k,
    (run_poll0 (take k (concat (replicate n [d; c]))) st).[mi_quick_charge] = 0.
Proof.
  induction n as [|n IH]; intros st Hc Hq C D.
  - cbn [replicate concat]. rewrite run_poll0_nil.
    split; [exact Hc|]. split; [exact Hq|]. split; [exact C|].
    intros k. rewrite take_nil, run_poll0_nil. exact Hq.
  - cbn [replicate concat app].
    destruct (poll0_disconfirming d st D ltac:(lia)) as [c1 q1].
    rewrite Hc in c1. rewrite Hq, bool_decide_eq_true_2 in q1 by lia.
    pose proof (confirming_after c d st C) as C1.
    pose proof (disconfirming_after d d st D) as D1.
    destruct (poll0_confirming c _ C1 ltac:(lia)) as [c2 q2].
    rewrite c1 in c2. rewrite q1, bool_decide_eq_false_2 in q2 by lia.
    pose proof (confirming_after c c _ C1) as C2.
    pose proof (disconfirming_after d c _ D1) as D2.
    destruct (IH (poll0 c (poll0 d st)) ltac:(lia) q2 C2 D2)
      as (A1 & A2 & A3 & A4).
    rewrite !run_poll0_cons.
    split; [exact A1|]. split; [exact A2|]. split; [exact A3|].
    intros [|[|k]]; cbn [take].
    + rewrite run_poll0_nil. exact Hq.
    + rewrite run_poll0_cons, run_poll0_nil. exact q1.
    + rewrite !run_poll0_cons. apply A4.
Qed.

(** What the frames of such a run are to the filter. *)
Lemma observations_dropouts st c d n :
  confirming st c -> disconfirming st d ->
  observations st (with_dropouts n c d)
  = [true; true] ++ concat (replicate n [false; true]) ++ [true].
Proof.
  intros [_ C] [_ D]. unfold observations, with_dropouts.
  rewrite !map_app. cbn [map app].
  rewrite !(bool_decide_eq_true_2 _ C).
  do 2 f_equal. f_equal.
  induction n as [|n IH]; [reflexivity|].
  cbn [replicate concat app map].
  by rewrite (bool_decide_eq_true_2 _ C), (bool_decide_eq_false_2 _ D), IH.
Qed.

(** A run of dropouts, each followed by one confirming frame, holds no
    three confirming frames in a row. *)
Lemma dropouts_break_runs n :
  three_in_a_row (concat (replicate n [false; true]) ++ [true]) = false.
Proof.
  induction n as [|n IH]; [reflexivity|].
  destruct n as [|n]; [reflexivity|].
  cbn [replicate concat app] in *.
  exact IH.
Qed.

(** C2. The filter counts confirming frames down and disconfirming frames
    up from where the counter stands; it does not ask for three confirming
    frames in a row.  From the fully disconfirmed state (counter 3, flag
    off), two confirming frames, then any number [n] of single dropouts
    each followed by one confirming frame, then one more confirming frame
    turn the quick-charge flag on: it is off after every proper prefix of
    the run and on, with the counter at 0, after the last frame.  For [n]
    of at least 1 no three frames in a row of that run are confirming;
    [n = 0] is the run of three confirming frames. *)
Theorem C2_filter_counts_up_and_down st c d n :
  st.[mi_qc_counter] = 3 -> st.[mi_quick_charge] = 0 ->
  confirming st c -> disconfirming st d ->
  let fs := with_dropouts n c d in
  (forall k, (k < length fs)%nat ->
     (run_poll0 (take k fs) st).[mi_quick_charge] = 0) /\
  (run_poll0 fs st).[mi_quick_charge] = 1 /\
  (run_poll0 fs st).[mi_qc_counter] = 0 /\
  ((1 <= n)%nat -> three_in_a_row (observations st fs) = false).
Proof.
  intros Hc Hq C D fs. subst fs.
  destruct (poll0_confirming c st C ltac:(lia)) as [c1 q1].
  rewrite Hc in c1. rewrite Hq, bool_decide_eq_false_2 in q1 by lia.
  pose proof (confirming_after c c st C) as C1.
  pose proof (disconfirming_after d c st D) as D1.
  destruct (poll0_confirming c _ C1 ltac:(lia)) as [c2 q2].
  rewrite c1 in c2. rewrite q1, bool_decide_eq_false_2 in q2 by lia.
  pose proof (confirming_after c c _ C1) as C2.
  pose proof (disconfirming_after d c _ D1) as D2.
  destruct (dropouts_absorbed c d n (poll0 c (poll0 c st))
              ltac:(lia) q2 C2 D2) as (A1 & A2 & A3 & A4).
  destruct (poll0_confirming c _ A3 ltac:(lia)) as [c3 q3].
  rewrite A1 in c3. rewrite bool_decide_eq_true_2 in q3 by lia.
  change (Z.max 0 (1 - 1)) with 0 in c3.
  split; [|split; [|split]].
  - unfold with_dropouts. cbn [app length]. rewrite length_app. cbn [length].
    intros [|[|k]] Hk; cbn [take].
    + rewrite run_poll0_nil. exact Hq.
    + rewrite run_poll0_cons, run_poll0_nil. exact q1.
    + rewrite !run_poll0_cons, take_app_le by lia. apply A4.
  - unfold with_dropouts. cbn [app]. rewrite !run_poll0_cons.
    unfold run_poll0 at 1. rewrite fold_left_app. exact q3.
  - unfold with_dropouts. cbn [app]. rewrite !run_poll0_cons.
    unfold run_poll0 at 1. rewrite fold_left_app. exact c3.
  - intros Hn. rewrite observations_dropouts by assumption.
    destruct n as [|n]; [lia|].
    pose proof (dropouts_break_runs (S n)) as B.
    cbn [replicate concat app] in *. exact B.
Qed.

(** *** A charge under way *)

Lemma poll0_charger_frame f st x :
  charger_frame f -> written charger_vars x = false ->
  (poll0 f st).[x] = st.[x].
Proof.
  intros Hid H. unfold charger_frame in Hid.
  unfold vehicle_mitsubishi_poll0. cbv zeta. rewrite Hid.
  repeat (rewrite bool_decide_eq_false_2 by done).
  rewrite bool_decide_eq_true_2 by done.
  frame H.
Qed.

Lemma poll0_charger_signals f st :
  charger_frame f ->
  (poll0 f st).[car_linevoltage] = frame_voltage f /\
  (poll0 f st).[car_chargecurrent] = frame_current f /\
  (poll0 f st).[mi_stale_charge] = 30 /\
  net_notify (poll0 f st) = net_notify st.
Proof.
  intros Hid. unfold charger_frame in Hid.
  unfold vehicle_mitsubishi_poll0, frame_voltage, frame_current. cbv zeta.
  rewrite Hid.
  repeat (rewrite bool_decide_eq_false_2 by done).
  rewrite bool_decide_eq_true_2 by done.
  autorewrite with store.
  pose proof (data_range f 1). pose proof (data_range f 6).
  assert (0 <= data f 6 / 10 < 2 ^ 8).
  { split; [apply Z.div_pos; lia|]. apply Z.div_lt_upper_bound; lia. }
  rewrite !u8_small by lia. done.
Qed.

Lemma frame_watts_range f : 0 <= frame_watts f < 60000.
Proof.
  unfold frame_watts, frame_current, frame_voltage.
  pose proof (data_range f 1). pose proof (data_range f 6).
  assert (0 <= data f 6 / 10 <= 25).
  { split; [apply Z.div_pos; lia|]. apply Z.lt_succ_r.
    apply Z.div_lt_upper_bound; lia. }
  nia.
Qed.

Lemma charge_second_ongoing f st :
  charging_frame f -> ongoing st -> 0 <= st.[mi_charge_timer] < 255 ->
  let st' := charge_second f st in
  ongoing st' /\
  st'.[car_chargestate] = st.[car_chargestate] /\
  net_notify st' = net_notify st /\
  st'.[mi_charge_timer]
  = (if bool_decide (st.[mi_charge_timer] + 1 >= 60) then 0
     else st.[mi_charge_timer] + 1) /\
  st'.[car_chargeduration]
  = (if bool_decide (st.[mi_charge_timer] + 1 >= 60)
     then minutes_wrap (st.[car_chargeduration] + 1)
     else st.[car_chargeduration]) /\
  st'.[mi_charge_wm]
  = wm_after st.[mi_charge_timer] st.[mi_charge_wm] (frame_watts f) /\
  st'.[car_chargekwh]
  = kwh_after st.[mi_charge_timer] st.[mi_charge_wm] st.[car_chargekwh]
              (frame_watts f).
Proof.
  intros (Hid & Hc & Hv) [Hp Hq] Ht st'. subst st'.
  unfold ongoing, charge_second, wm_after, kwh_after, frame_watts.
  destruct (poll0_charger_signals f st Hid) as (Pv & Pc & Ps & Pn).
  pose proof (poll0_charger_frame f st) as Psame.
  specialize (fun x => Psame x Hid).
  generalize dependent (poll0 f st). intros p Pv Pc Ps Pn Psame.
  destruct (stale_charge_quiet p) as (Sq & Sv & Sc); [lia | lia |].
  rewrite Psame in Sq by reflexivity.
  rewrite Pv in Sv. rewrite Pc in Sc. rewrite Hq in Sq.
  rewrite (ticker1_get_stale p mi_quick_charge) by reflexivity. rewrite Sq.
  rewrite !ticker1_charge.
  pose proof (before_charge_same p) as Fsame.
  pose proof (before_charge_notify p) as Fnotify.
  rewrite <- (before_charge_stale p) in Sq, Sv, Sc by reflexivity.
  generalize dependent (before_charge p). intros s2 Sq Sv Sc Fsame Fnotify.
  rewrite <- Pn, <- Fnotify.
  rewrite <- !(Psame car_doors1), <- !(Psame car_chargestate),
    <- !(Psame mi_charge_timer), <- !(Psame car_chargeduration),
    <- !(Psame mi_charge_wm), <- !(Psame car_chargekwh) in * by reflexivity.
  rewrite <- !(Fsame car_doors1), <- !(Fsame car_chargestate),
    <- !(Fsame mi_charge_timer), <- !(Fsame car_chargeduration),
    <- !(Fsame mi_charge_wm), <- !(Fsame car_chargekwh) in * by reflexivity.
  clear Psame Fsame Pn Fnotify Pv Pc Ps Hq p st.
  unfold charge_state_determination. cbv zeta.
  rewrite (bool_decide_eq_true_2 (s2.[mi_quick_charge] = 1 \/ _)) by (right; lia).
  autorewrite with store.
  rewrite (bool_decide_eq_false_2 (Z.land s2.[car_doors1] 8 = 0)) by done.
  autorewrite with store.
  rewrite (u8_small (s2.[mi_charge_timer] + 1)) by lia.
  rewrite Sv, Sc.
  assert (L : Z.land (Z.lor s2.[car_doors1] ChargePort) 8 <> 0)
    by (unfold ChargePort; by rewrite land_lor_disjoint).
  repeat case_bool_decide; autorewrite with store in *;
    repeat split; try done; try lia.
Qed.

Lemma charge_seconds_within f k : forall st,
  charging_frame f -> ongoing st ->
  0 <= st.[mi_charge_timer] -> st.[mi_charge_timer] + Z.of_nat k <= 59 ->
  let st' := Nat.iter k (charge_second f) st in
  ongoing st' /\
  st'.[car_chargestate] = st.[car_chargestate] /\
  net_notify st' = net_notify st /\
  st'.[mi_charge_timer] = st.[mi_charge_timer] + Z.of_nat k /\
  st'.[car_chargeduration] = st.[car_chargeduration] /\
  st'.[mi_charge_wm] = st.[mi_charge_wm] /\
  st'.[car_chargekwh] = st.[car_chargekwh].
Proof.
  induction k as [|k IH]; intros st Hf Ho Ht0 Ht.
  - intros st'. subst st'. change (Nat.iter 0 (charge_second f) st) with st.
    repeat split; try done; try apply Ho. lia.
  - intros st'. subst st'. rewrite Nat.iter_succ.
    destruct (IH st Hf Ho Ht0 ltac:(lia)) as (O & S & N & T & D & W & K).
    generalize dependent (Nat.iter k (charge_second f) st).
    intros s O S N T D W K.
    destruct (charge_second_ongoing f s Hf O ltac:(lia))
      as (O' & S' & N' & T' & D' & W' & K').
    unfold wm_after in W'. unfold kwh_after in K'.
    rewrite bool_decide_eq_false_2 in T', D', W', K' by lia.
    repeat split; try apply O'; try congruence. lia.
Qed.

(** A full minute from the per-second timer at 0. *)
Lemma charge_minute_ongoing f st :
  charging_frame f -> ongoing st -> st.[mi_charge_timer] = 0 ->
  let st' := charge_minute f st in
  ongoing st' /\
  st'.[car_chargestate] = st.[car_chargestate] /\
  net_notify st' = net_notify st /\
  st'.[mi_charge_timer] = 0 /\
  st'.[car_chargeduration] = minutes_wrap (st.[car_chargeduration] + 1) /\
  st'.[mi_charge_wm] = wm_after 59 st.[mi_charge_wm] (frame_watts f) /\
  st'.[car_chargekwh]
  = kwh_after 59 st.[mi_charge_wm] st.[car_chargekwh] (frame_watts f).
Proof.
  intros Hf Ho Ht st'. subst st'. unfold charge_minute.
  change 60%nat with (S 59). rewrite Nat.iter_succ.
  destruct (charge_seconds_within f 59 st Hf Ho ltac:(lia) ltac:(lia))
    as (O & S & N & T & D & W & K).
  generalize dependent (Nat.iter 59 (charge_second f) st).
  intros s O S N T D W K.
  destruct (charge_second_ongoing f s Hf O ltac:(lia))
    as (O' & S' & N' & T' & D' & W' & K').
  assert (T59 : s.[mi_charge_timer] = 59) by lia.
  rewrite T59 in *. rewrite bool_decide_eq_true_2 in T', D' by lia.
  repeat split; try apply O'; try congruence.
Qed.

(** The tick that finds a charge starting. *)
Lemma charge_starts st :
  let s := stale_tickers st in
  s.[car_chargecurrent] <> 0 -> s.[car_linevoltage] > 100 ->
  s.[mi_quick_charge] = 0 ->
  Z.land st.[car_doors1] 0x08 = 0 ->
  let st' := ticker1 st in
  ongoing st' /\
  st'.[car_chargestate] = 1 /\ st'.[car_chargesubstate] = 3 /\
  st'.[car_chargelimit] = 16 /\
  st'.[car_chargeduration] = 0 /\ st'.[car_chargekwh] = 0 /\
  st'.[mi_charge_timer] = 0 /\ st'.[mi_charge_wm] = 0 /\
  net_notify st' = net_notify st ++ [NET_NOTIFY_STAT].
Proof.
  intros s Hc Hv Hq Hp st'. subst s st'. unfold ongoing.
  rewrite (ticker1_get_stale st mi_quick_charge) by reflexivity.
  rewrite Hq.
  rewrite <- (before_charge_same st car_doors1) in Hp by reflexivity.
  enter_charge st s2.
  repeat split; try reflexivity; try done.
  by rewrite land_lor_within.
Qed.

(** C4. From a state that is not charging (pilot flag clear), on a tick
    that reads line voltage 150, charge current 16 and no quick charge,
    the charge state becomes 1 (charging) with duration 0 and 0 kWh, and
    the one notification requested is the status notification.  Sixty
    further seconds, in each of which the charger frame with the same
    signals arrives (so that the charge stale timer stays fresh) and the
    tick runs, leave the state at charging, with duration 1 and no further
    notification.  This holds whatever the state of charge, 50 included. *)
Theorem C4_charge_start_and_first_minute st f :
  let s := stale_tickers st in
  s.[car_linevoltage] = 150 -> s.[car_chargecurrent] = 16 ->
  s.[mi_quick_charge] = 0 ->
  Z.land st.[car_doors1] 0x08 = 0 ->
  charger_frame f -> frame_voltage f = 150 -> frame_current f = 16 ->
  let st1 := ticker1 st in
  let st61 := charge_minute f st1 in
  st1.[car_chargestate] = 1 /\
  st1.[car_chargeduration] = 0 /\
  st1.[car_chargekwh] = 0 /\
  net_notify st1 = net_notify st ++ [NET_NOTIFY_STAT] /\
  st61.[car_chargestate] = 1 /\
  st61.[car_chargeduration] = 1 /\
  net_notify st61 = net_notify st1.
Proof.
  intros s Hv Hc Hq Hp Hid Fv Fc. subst s. cbv zeta.
  pose proof (charge_starts st) as CS. cbv zeta in CS.
  rewrite Hv, Hc in CS.
  assert (A1 : 16 <> 0) by discriminate.
  assert (A2 : 150 > 100) by reflexivity.
  destruct (CS A1 A2 Hq Hp) as (O & S & _ & _ & D & K & T & _ & N).
  clear CS Hv Hc Hq Hp.
  assert (Hf : charging_frame f).
  { unfold charging_frame. rewrite Fv, Fc. split; [exact Hid|]. split; lia. }
  generalize dependent (ticker1 st). intros st1 O S D K T N.
  pose proof (charge_minute_ongoing f st1 Hf O T) as CM. cbv zeta in CM.
  destruct CM as (_ & S' & N' & _ & D' & _).
  generalize dependent (charge_minute f st1).
  intros st61 S' N' D'.
  rewrite D in D'. rewrite S in S'.
  repeat split; assumption.
Qed.

(** *** The energy of a charge *)

(** The carry out of the watt-minutes keeps the total: with the total [E]
    held as [E mod 60000] watt-minutes and [E / 60000] kWh in a byte, a
    minute of [w] watts leaves the total [E + w] held the same way. *)
Lemma carry_keeps_total E w :
  0 <= E -> 0 <= w < 60000 ->
  wm_after 59 (E mod 60000) w = (E + w) mod 60000 /\
  kwh_after 59 (E mod 60000) ((E / 60000) mod 2 ^ 8) w
  = ((E + w) / 60000) mod 2 ^ 8.
Proof.
  intros HE Hw. unfold wm_after, kwh_after. cbv zeta.
  rewrite bool_decide_eq_true_2 by lia.
  pose proof (Z.mod_pos_bound E 60000 ltac:(lia)) as Hr.
  pose proof (Z.div_mod E 60000 ltac:(lia)) as HEq.
  unfold watts_wrap, kwh_wrap.
  rewrite (u16_small w) by lia.
  rewrite (u32_small (E mod 60000 + w)) by lia.
  case_bool_decide as Hc.
  - rewrite u32_small by lia.
    assert (Hq : (E + w) / 60000 = E / 60000 + 1)
      by (symmetry; apply (Z.div_unique _ _ _ (E mod 60000 + w - 60000)); lia).
    assert (Hm : (E + w) mod 60000 = E mod 60000 + w - 60000)
      by (symmetry; apply (Z.mod_unique _ _ (E / 60000 + 1)); lia).
    rewrite Hq, Hm. split; [done|].
    unfold u8. by rewrite Zplus_mod_idemp_l.
  - assert (Hq : (E + w) / 60000 = E / 60000)
      by (symmetry; apply (Z.div_unique _ _ _ (E mod 60000 + w)); lia).
    assert (Hm : (E + w) mod 60000 = E mod 60000 + w)
      by (symmetry; apply (Z.mod_unique _ _ (E / 60000)); lia).
    by rewrite Hq, Hm.
Qed.

Lemma energy_nonneg fs : 0 <= energy fs.
Proof.
  induction fs as [|f fs IH]; simpl; [done|].
  pose proof (frame_watts_range f). lia.
Qed.

Lemma fold_left_step {A B} (F : A -> B -> A) (b : B) (l : list B) (a : A) :
  fold_left F (b :: l) a = fold_left F l (F a b).
Proof. reflexivity. Qed.

Lemma charge_minutes_cons f fs st :
  charge_minutes (f :: fs) st = charge_minutes fs (charge_minute f st).
Proof.
  unfold charge_minutes.
  exact (fold_left_step (fun s g => charge_minute g s) f fs st).
Qed.

(** What the two accumulators hold after any run of charging minutes. *)
Lemma charge_minutes_total fs : forall st E,
  Forall charging_frame fs -> ongoing st -> st.[mi_charge_timer] = 0 ->
  0 <= E ->
  st.[mi_charge_wm] = E mod 60000 ->
  st.[car_chargekwh] = (E / 60000) mod 2 ^ 8 ->
  let st' := charge_minutes fs st in
  st'.[mi_charge_wm] = (E + energy fs) mod 60000 /\
  st'.[car_chargekwh] = ((E + energy fs) / 60000) mod 2 ^ 8.
Proof.
  induction fs as [|f fs IH]; intros st E Hfs Ho Ht HE Hw Hk.
  - cbn [energy fold_right]. rewrite Z.add_0_r. by split.
  - intros st'. subst st'. rewrite charge_minutes_cons.
    apply Forall_cons in Hfs as [Hf Hfs].
    destruct (charge_minute_ongoing f st Hf Ho Ht)
      as (O & _ & _ & T & _ & W & K).
    rewrite Hw in W, K. rewrite Hk in K.
    destruct (carry_keeps_total E (frame_watts f) HE (frame_watts_range f))
      as [W' K'].
    rewrite W' in W. rewrite K' in K.
    generalize dependent (charge_minute f st). intros s O T W K.
    pose proof (frame_watts_range f).
    destruct (IH s (E + frame_watts f) Hfs O T ltac:(lia) W K) as [IW IK].
    cbn [energy fold_right]. fold (energy fs).
    by rewrite !Z.add_assoc.
Qed.

(** C3, amended.  From a charge under way with the accumulators at zero,
    over any run of minutes outside quick charge, the reported kWh times
    60000 plus the watt-minute remainder is the sum of the minutes'
    current times voltage, as long as that sum stays below 256 kWh, the
    capacity of the kWh byte. *)
Theorem C3_energy_conserved fs st :
  Forall charging_frame fs -> ongoing st ->
  st.[mi_charge_timer] = 0 -> st.[mi_charge_wm] = 0 -> st.[car_chargekwh] = 0 ->
  energy fs < 2 ^ 8 * 60000 ->
  let st' := charge_minutes fs st in
  st'.[car_chargekwh] * 60000 + st'.[mi_charge_wm] = energy fs.
Proof.
  intros Hfs Ho Ht Hw Hk Hlt st'.
  destruct (charge_minutes_total fs st 0 Hfs Ho Ht ltac:(lia) Hw Hk) as [W K].
  fold st' in W, K. rewrite Z.add_0_l in W, K.
  pose proof (energy_nonneg fs) as H0.
  rewrite W, K.
  rewrite (Z.mod_small (energy fs / 60000)).
  - pose proof (Z.div_mod (energy fs) 60000 ltac:(lia)). lia.
  - split; [apply Z.div_pos; lia|]. apply Z.div_lt_upper_bound; lia.
Qed.

(** *** What the tick and unknown frames leave alone *)

Lemma ticker1_other st x :
  written stale_vars x = false -> written range_vars x = false ->
  written charge_vars x = false -> (ticker1 st).[x] = st.[x].
Proof.
  intros H1 H2 H3. unfold vehicle_mitsubishi_ticker1.
  by rewrite charge_state_frame, range_update_frame, stale_tickers_frame.
Qed.

(** X15. The one-second tick writes the variables of its three parts and no
    others: the state of charge, the speed, the odometer, the raw range,
    the filter counter and the rest of the store pass through it, and so
    does the temperature buffer. *)
Theorem ticker1_writes_only st x :
  written (stale_vars ++ range_vars ++ charge_vars) x = false ->
  (ticker1 st).[x] = st.[x] /\ mi_batttemps (ticker1 st) = mi_batttemps st.
Proof.
  intros H.
  assert (H1 : written stale_vars x = false)
    by (destruct x; first [discriminate H | reflexivity]).
  assert (H2 : written range_vars x = false)
    by (destruct x; first [discriminate H | reflexivity]).
  assert (H3 : written charge_vars x = false)
    by (destruct x; first [discriminate H | reflexivity]).
  split; [by apply ticker1_other|].
  unfold vehicle_mitsubishi_ticker1.
  by rewrite charge_state_batttemps, range_update_batttemps,
    stale_tickers_batttemps.
Qed.

(** X25. A frame whose identifier neither handler knows only restarts the
    bus-activity timer; so does a park-status frame whose byte 6 is neither
    0x0C nor 0x0E. *)
Theorem unknown_frames_ignored f st :
  (can_id f <> 0x346 -> can_id f <> 0x374 -> can_id f <> 0x389 ->
     poll0 f st = set mi_candata_timer 60 st) /\
  (can_id f <> 0x285 -> can_id f <> 0x286 -> can_id f <> 0x298 ->
   can_id f <> 0x412 -> can_id f <> 0x6e1 ->
     poll1 f st = set mi_candata_timer 60 st) /\
  (can_id f = 0x285 -> data f 6 <> 0x0C -> data f 6 <> 0x0E ->
     poll1 f st = set mi_candata_timer 60 st).
Proof.
  split; [|split].
  - intros H1 H2 H3. unfold vehicle_mitsubishi_poll0. cbv zeta.
    rewrite !bool_decide_eq_false_2 by assumption. reflexivity.
  - intros H1 H2 H3 H4 H5. unfold vehicle_mitsubishi_poll1. cbv zeta.
    rewrite !bool_decide_eq_false_2 by assumption. reflexivity.
  - intros H1 H2 H3. unfold vehicle_mitsubishi_poll1. cbv zeta.
    rewrite (bool_decide_eq_true_2 _ H1).
    rewrite !bool_decide_eq_false_2 by assumption. reflexivity.
Qed.

(** Whatever the frame, both handlers leave the bus-activity timer at 60. *)
Lemma poll0_candata f st : (poll0 f st).[mi_candata_timer] = 60.
Proof.
  unfold vehicle_mitsubishi_poll0. cbv zeta.
  repeat case_bool_decide; by autorewrite with store.
Qed.

Lemma poll1_candata f st : (poll1 f st).[mi_candata_timer] = 60.
Proof.
  unfold vehicle_mitsubishi_poll1. cbv zeta.
  repeat case_bool_decide; by autorewrite with store.
Qed.

(** *** The ideal range *)

(** X14. After every tick the ideal range is 0 up to a state of charge of 10
    and 104/100 of the excess over 10 above it; it never decreases when the
    state of charge increases, and up to 100 % it does not exceed 93. *)
Theorem ideal_range_of_SOC st :
  0 <= st.[car_SOC] < 2 ^ 8 ->
  (vehicle_mitsubishi_ticker1 MiFromKm udiv0 st).[car_idealrange]
  = (if bool_decide (st.[car_SOC] <= 10) then 0
     else (st.[car_SOC] - 10) * 104 / 100) /\
  (st.[car_SOC] <= 100 -> (ticker1 st).[car_idealrange] <= 93) /\
  (forall st2, st.[car_SOC] <= st2.[car_SOC] < 2 ^ 8 ->
     (ticker1 st).[car_idealrange] <= (ticker1 st2).[car_idealrange]).
Proof.
  intros Hr.
  assert (F : forall s, 0 <= s.[car_SOC] < 2 ^ 8 ->
            (ticker1 s).[car_idealrange]
            = (if bool_decide (s.[car_SOC] <= 10) then 0
               else (s.[car_SOC] - 10) * 104 / 100)).
  { clear st Hr. intros st Hr. rewrite ticker1_get_range by reflexivity.
    pose proof (stale_tickers_frame st car_SOC eq_refl) as E.
    rewrite <- E in *.
    generalize dependent (stale_tickers st). intros s1 Hr _.
    unfold range_update. cbv zeta.
    assert (W : forall z, 0 <= z < 2 ^ 8 -> ~ z <= 10 ->
              u16 (u16 (u16 z - 10) * 104) / 100 = (z - 10) * 104 / 100).
    { intros z Hz Hs. rewrite (u16_small z) by lia.
      rewrite (u16_small (_ - 10)) by lia. rewrite u16_small by lia. done. }
    repeat case_bool_decide; autorewrite with store in *;
      try reflexivity; try lia; apply W; lia. }
  split; [by apply F|]. split.
  - intros Hs. rewrite F by done. case_bool_decide; [lia|].
    apply Z.lt_succ_r, Z.div_lt_upper_bound; lia.
  - intros st2 H2. rewrite !F by lia.
    repeat case_bool_decide; try lia.
    + apply Z.div_pos; lia.
    + apply Z.div_le_mono; lia.
Qed.

(** *** Invariants of the filter counter and of the anchor *)

Section Invariants.

Variables NET_FN_INTERNALGPS NET_FN_12VMONITOR : Z.

Local Abbreviation exec :=
  (exec MiFromKm udiv0 NET_FN_INTERNALGPS NET_FN_12VMONITOR).

(** X16. Every operation keeps the filter counter between 0 and 3. *)
Theorem qc_counter_bounded op st :
  0 <= st.[mi_qc_counter] <= 3 ->
  0 <= (exec op st).[mi_qc_counter] <= 3.
Proof.
  intros H. destruct op as [f|f| | |]; cbn [exec].
  - unfold vehicle_mitsubishi_poll0. cbv zeta.
    repeat case_bool_decide; autorewrite with store in *;
      rewrite ?u8_small by lia; lia.
  - unfold vehicle_mitsubishi_poll1. cbv zeta.
    repeat case_bool_decide; autorewrite with store; lia.
  - by rewrite ticker1_other by reflexivity.
  - unfold vehicle_mitsubishi_ticker10. autorewrite with store. lia.
  - unfold vehicle_mitsubishi_initialise. cbv zeta. autorewrite with store.
    rewrite clear_batttemps_get. autorewrite with store. lia.
Qed.

Lemma range_update_anchor_floor s1 :
  20 <= s1.[mi_last_good_SOC] ->
  20 <= (range_update MiFromKm udiv0 s1).[mi_last_good_SOC].
Proof.
  intros H. unfold range_update. cbv zeta.
  repeat case_bool_decide; autorewrite with store in *; lia.
Qed.

(** X12. Once the anchor's state of charge is at least 20, every operation
    leaves it at least 20. *)
Theorem anchor_SOC_floor op st :
  20 <= st.[mi_last_good_SOC] ->
  20 <= (exec op st).[mi_last_good_SOC].
Proof.
  intros H. destruct op as [f|f| | |]; cbn [exec].
  - by rewrite poll0_anchor by auto.
  - by rewrite poll1_anchor by auto.
  - rewrite ticker1_get_range by reflexivity.
    apply range_update_anchor_floor.
    by rewrite stale_tickers_frame by reflexivity.
  - unfold vehicle_mitsubishi_ticker10. by autorewrite with store.
  - by rewrite initialise_anchor by auto.
Qed.

End Invariants.

Lemma interpolation_exact r a soc :
  0 <= r < 2 ^ 8 -> 20 <= a < 2 ^ 8 -> 10 < soc < 2 ^ 8 ->
  udiv16 udiv0 (u16 (u16 r * u16 (soc - 10))) (u16 (a - 10))
  = r * (soc - 10) / (a - 10).
Proof.
  intros Hr Ha Hs. unfold udiv16.
  rewrite (u16_small (a - 10)), (u16_small r), (u16_small (soc - 10)) by lia.
  pose proof (Z.mul_le_mono_nonneg r 255 (soc - 10) 245
                ltac:(lia) ltac:(lia) ltac:(lia) ltac:(lia)).
  pose proof (Z.mul_nonneg_nonneg r (soc - 10) ltac:(lia) ltac:(lia)).
  rewrite bool_decide_eq_false_2 by lia.
  by rewrite u16_small by lia.
Qed.

(** X10. With such an anchor the interpolation of a quick-charge tick above
    10 % never divides by zero: the published range is the true quotient
    through the anchor the tick leaves. *)
Theorem quick_charge_range_defined st :
  (stale_tickers st).[mi_quick_charge] = 1 ->
  10 < st.[car_SOC] < 2 ^ 8 ->
  20 <= st.[mi_last_good_SOC] < 2 ^ 8 ->
  0 <= st.[mi_last_good_range] < 2 ^ 8 ->
  let st' := ticker1 st in
  10 <= st'.[mi_last_good_SOC] - 10 /\
  st'.[car_estrange]
  = st'.[mi_last_good_range] * (st.[car_SOC] - 10)
    / (st'.[mi_last_good_SOC] - 10).
Proof.
  intros Hq Hs Ha Hr st'. subst st'. enter_range st s1.
  repeat decide_branch ltac:(autorewrite with store; lia).
  repeat case_bool_decide; autorewrite with store in *; try lia;
    (split; [lia|]); apply interpolation_exact; lia.
Qed.

(** X11. Round trip through the anchor: a quick-charge tick at the anchor's own
    state of charge publishes the anchor's range. *)
Theorem quick_charge_range_at_anchor st :
  (stale_tickers st).[mi_quick_charge] = 1 ->
  20 <= st.[car_SOC] < 2 ^ 8 ->
  st.[mi_last_good_SOC] = st.[car_SOC] ->
  0 <= st.[mi_last_good_range] < 2 ^ 8 ->
  (ticker1 st).[car_estrange] = st.[mi_last_good_range].
Proof.
  intros Hq Hs Ha Hr. enter_range st s1.
  repeat decide_branch ltac:(autorewrite with store; lia).
  repeat case_bool_decide; autorewrite with store; try lia.
  rewrite interpolation_exact by lia.
  rewrite Ha. apply Z.div_mul. lia.
Qed.

(** *** The decoders *)

(** X17. The state-of-charge frame: a raw byte of at least 10 gives half of its
    excess over 10, at most 122; a raw byte below 10 underflows the
    unsigned subtraction and gives 251 to 255. *)
Theorem SOC_decoding f st :
  can_id f = 0x374 ->
  let b := data f 1 in
  let st' := poll0 f st in
  (10 <= b -> st'.[car_SOC] = (b - 10) / 2 /\ 0 <= st'.[car_SOC] <= 122) /\
  (b < 10 -> st'.[car_SOC] = 251 + b / 2) /\
  (forall x, x <> car_SOC -> x <> mi_candata_timer -> st'.[x] = st.[x]).
Proof.
  intros Hid b st'. subst b st'.
  unfold vehicle_mitsubishi_poll0. cbv zeta. rewrite Hid.
  rewrite (bool_decide_eq_false_2 (884 = 838)) by done.
  rewrite (bool_decide_eq_true_2 (884 = 884)) by done.
  pose proof (data_range f 1) as Hb.
  split; [|split].
  - intros H. autorewrite with store.
    rewrite (u16_small (data f 1 - 10)) by lia.
    assert (0 <= (data f 1 - 10) / 2 <= 122).
    { split; [apply Z.div_pos; lia|].
      apply Z.lt_succ_r, Z.div_lt_upper_bound; lia. }
    rewrite u8_small by lia. done.
  - intros H. autorewrite with store. unfold u16, u8.
    replace ((data f 1 - 10) mod 2 ^ 16) with (data f 1 + 65526)
      by (apply (Z.mod_unique _ _ (-1)); lia).
    assert (E : (data f 1 + 65526) / 2 = 32763 + data f 1 / 2).
    { replace (data f 1 + 65526) with (data f 1 + 32763 * 2) by lia.
      rewrite Z.div_add by lia. lia. }
    rewrite E.
    assert (0 <= data f 1 / 2 <= 4).
    { split; [apply Z.div_pos; lia|].
      apply Z.lt_succ_r, Z.div_lt_upper_bound; lia. }
    symmetry. apply (Z.mod_unique _ _ 127); lia.
  - intros x H1 H2. by rewrite !get_set_ne.
Qed.

(** X18. The speed byte of frame 0x412: up to 200 it is the speed; above 200
    the subtraction of 255 wraps, so that 255 reads as 0 and 201 to 254
    read as one more than the byte. *)
Theorem speed_decoding f st :
  can_id f = 0x412 ->
  let b := data f 1 in
  let st' := poll1 f st in
  (b <= 200 -> st'.[car_speed] = b) /\
  (b = 255 -> st'.[car_speed] = 0) /\
  (200 < b < 255 -> st'.[car_speed] = b + 1).
Proof.
  intros Hid b st'. subst b st'.
  unfold vehicle_mitsubishi_poll1. cbv zeta. rewrite Hid.
  rewrite !(bool_decide_eq_false_2 (1042 = _)) by done.
  rewrite (bool_decide_eq_true_2 (1042 = 1042)) by done.
  pose proof (data_range f 1) as Hb.
  assert (W : 200 < data f 1 ->
              u8 (u16 (data f 1 - 255)) = (data f 1 + 1) mod 256).
  { intros H. unfold u16, u8.
    destruct (decide (data f 1 = 255)) as [->|Hn]; [reflexivity|].
    replace ((data f 1 - 255) mod 2 ^ 16) with (data f 1 + 65281)
      by (apply (Z.mod_unique _ _ (-1)); lia).
    rewrite (Z.mod_small (data f 1 + 1)) by lia.
    symmetry. apply (Z.mod_unique _ _ 255); lia. }
  split; [|split]; intros H;
    repeat case_bool_decide; autorewrite with store; try lia.
  - by apply u8_small.
  - by apply u8_small.
  - rewrite W by lia. by rewrite H.
  - rewrite W by lia. by rewrite H.
  - rewrite W by lia. apply Z.mod_small. lia.
  - rewrite W by lia. apply Z.mod_small. lia.
Qed.

(** X19. The odometer of frame 0x412: ten times the big-endian value of bytes
    2 to 4, which fits the 32-bit variable; in kilometre mode it goes
    through [MiFromKm] first. *)
Theorem odometer_decoding f st :
  can_id f = 0x412 ->
  let raw := (data f 2 * 65536 + data f 3 * 256 + data f 4) * 10 in
  let st' := poll1 f st in
  0 <= raw < 2 ^ 32 /\
  (st.[can_mileskm] <> 75 -> st'.[car_odometer] = raw) /\
  (st.[can_mileskm] = 75 -> st'.[car_odometer] = u32 (MiFromKm raw)).
Proof.
  intros Hid raw st'. subst raw st'.
  unfold vehicle_mitsubishi_poll1. cbv zeta. rewrite Hid.
  rewrite !(bool_decide_eq_false_2 (1042 = _)) by done.
  rewrite (bool_decide_eq_true_2 (1042 = 1042)) by done.
  pose proof (data_range f 2) as R2. pose proof (data_range f 3) as R3.
  pose proof (data_range f 4) as R4.
  rewrite !Z.shiftl_mul_pow2 by lia.
  change (2 ^ 16) with 65536. change (2 ^ 8) with 256 in *.
  rewrite (u32_small (data f 2 * 65536)) by lia.
  rewrite (u32_small (data f 3 * 256)) by lia.
  rewrite (u32_small (_ + data f 4)) by lia.
  rewrite (u32_small (_ * 10)) by lia.
  split; [lia|].
  split; intros H; repeat case_bool_decide; autorewrite with store in *;
    first [reflexivity | contradiction].
Qed.

(** *** The park status frame *)

Ltac poll1_park Hid Hb :=
  unfold vehicle_mitsubishi_poll1; cbv zeta;
  rewrite (bool_decide_eq_true_2 _ Hid); rewrite Hb;
  rewrite ?(bool_decide_eq_true_2 (12 = 12)) by done;
  rewrite ?(bool_decide_eq_false_2 (14 = 12)) by done;
  rewrite ?(bool_decide_eq_true_2 (14 = 14)) by done.

Lemma park_frame_time f st :
  can_id f = 0x285 -> data f 6 = 0x0C ->
  (st.[car_parktime] = 0 ->
     (poll1 f st).[car_parktime] = clock_wrap (st.[car_time] - 1) /\
     net_notify (poll1 f st) = net_notify st ++ [NET_NOTIFY_ENV]) /\
  (st.[car_parktime] <> 0 ->
     (poll1 f st).[car_parktime] = st.[car_parktime] /\
     net_notify (poll1 f st) = net_notify st).
Proof.
  intros Hid Hb. poll1_park Hid Hb. autorewrite with store.
  split; intros H; case_bool_decide; autorewrite with store;
    first [split; reflexivity | contradiction].
Qed.

(** X20. A park frame sets the park flag and clears the car-on flag; the six
    lower flags of [car_doors1], the charge flags among them, stay as they
    are.  The time of parking is recorded, one second back, and notified
    only when none is recorded yet. *)
Theorem park_frame f st :
  can_id f = 0x285 -> data f 6 = 0x0C ->
  let st' := poll1 f st in
  Z.land st'.[car_doors1] 0x40 = 0x40 /\
  Z.land st'.[car_doors1] 0x80 = 0 /\
  Z.land st'.[car_doors1] 0x3f = Z.land st.[car_doors1] 0x3f /\
  (st.[car_parktime] = 0 ->
     st'.[car_parktime] = clock_wrap (st.[car_time] - 1) /\
     net_notify st' = net_notify st ++ [NET_NOTIFY_ENV]) /\
  (st.[car_parktime] <> 0 ->
     st'.[car_parktime] = st.[car_parktime] /\
     net_notify st' = net_notify st).
Proof.
  intros Hid Hb st'. subst st'. poll1_park Hid Hb.
  autorewrite with store.
  assert (B1 : forall d, Z.land (Z.land (Z.lor d 64) (Z.lnot 128)) 64 = 64).
  { intros d. rewrite land_clear_disjoint by done. by apply land_lor_within. }
  assert (B2 : forall d, Z.land (Z.land (Z.lor d 64) (Z.lnot 128)) 128 = 0)
    by (intros d; by apply land_clear_within).
  assert (B3 : forall d, Z.land (Z.land (Z.lor d 64) (Z.lnot 128)) 63
                         = Z.land d 63).
  { intros d. rewrite land_clear_disjoint by done.
    by apply land_lor_disjoint. }
  repeat split; case_bool_decide; autorewrite with store;
    first [apply B1 | apply B2 | apply B3 | reflexivity | contradiction].
Qed.

(** X21. A second park frame changes nothing more and is not notified, as long
    as the clock does not stand at 1; at 1 the recorded time is 0, which
    reads as not parked. *)
Theorem park_frame_repeated f st :
  can_id f = 0x285 -> data f 6 = 0x0C ->
  0 <= st.[car_time] < 2 ^ 32 ->
  (st.[car_time] <> 1 ->
     (poll1 f (poll1 f st)).[car_parktime] = (poll1 f st).[car_parktime] /\
     net_notify (poll1 f (poll1 f st)) = net_notify (poll1 f st)) /\
  (st.[car_time] = 1 -> st.[car_parktime] = 0 ->
     (poll1 f st).[car_parktime] = 0).
Proof.
  intros Hid Hb Ht.
  destruct (park_frame_time f st Hid Hb) as (P0 & P1).
  assert (T : (poll1 f st).[car_time] = st.[car_time]).
  { poll1_park Hid Hb. case_bool_decide; by autorewrite with store. }
  split.
  - intros Hn.
    assert (N : (poll1 f st).[car_parktime] <> 0).
    { destruct (decide (st.[car_parktime] = 0)) as [E|E].
      - rewrite (proj1 (P0 E)). unfold clock_wrap, u32.
        destruct (decide (st.[car_time] = 0)) as [->|Hz]; [done|].
        rewrite Z.mod_small by lia. lia.
      - by rewrite (proj1 (P1 E)). }
    generalize dependent (poll1 f st). intros s _ _ _ N.
    destruct (park_frame_time f s Hid Hb) as (_ & Q1).
    exact (Q1 N).
  - intros H1 H0. rewrite (proj1 (P0 H0)), H1. reflexivity.
Qed.

(** X22. A frame that says the car is not parked clears the park flag, sets the
    car-on flag, and clears and notifies a recorded parking time. *)
Theorem unpark_frame f st :
  can_id f = 0x285 -> data f 6 = 0x0E ->
  let st' := poll1 f st in
  Z.land st'.[car_doors1] 0x40 = 0 /\
  Z.land st'.[car_doors1] 0x80 = 0x80 /\
  Z.land st'.[car_doors1] 0x3f = Z.land st.[car_doors1] 0x3f /\
  st'.[car_parktime] = 0 /\
  net_notify st'
  = (if bool_decide (st.[car_parktime] <> 0)
     then net_notify st ++ [NET_NOTIFY_ENV] else net_notify st).
Proof.
  intros Hid Hb st'. subst st'. poll1_park Hid Hb.
  autorewrite with store.
  assert (B1 : forall d, Z.land (Z.lor (Z.land d (Z.lnot 64)) 128) 64 = 0).
  { intros d. rewrite land_lor_disjoint by done. by apply land_clear_within. }
  assert (B2 : forall d, Z.land (Z.lor (Z.land d (Z.lnot 64)) 128) 128 = 128)
    by (intros d; by apply land_lor_within).
  assert (B3 : forall d, Z.land (Z.lor (Z.land d (Z.lnot 64)) 128) 63
                         = Z.land d 63).
  { intros d. rewrite land_lor_disjoint by done.
    by apply land_clear_disjoint. }
  case_bool_decide as Hp; autorewrite with store;
    repeat split; first [apply B1 | apply B2 | apply B3 | reflexivity | idtac].
  exact Hp.
Qed.

(** *** Temperatures *)

Lemma fold_seq_lookup (G : Z -> Z -> Z) (l : list Z) : forall pre acc,
  fold_left (fun a i => G a (default 0 ((pre ++ l) !! i)))
            (seq (length pre) (length l)) acc
  = fold_left G l acc.
Proof.
  induction l as [|t l IH]; intros pre acc; [reflexivity|].
  cbn [length seq fold_left].
  rewrite list_lookup_middle by reflexivity. cbn [default].
  specialize (IH (pre ++ [t]) (G acc t)).
  rewrite length_app, <- app_assoc in IH. cbn [length app] in IH.
  rewrite Nat.add_1_r in IH. exact IH.
Qed.

Lemma sum_temps_range l :
  Forall is_schar l ->
  - 128 * Z.of_nat (length l) <= sum_temps l <= 127 * Z.of_nat (length l).
Proof.
  induction 1 as [|t l Ht _ IH]; cbn [sum_temps foldr length]; [lia|].
  fold (sum_temps l). unfold is_schar in Ht. lia.
Qed.

Lemma fold_temps_exact l : forall acc n,
  Forall is_schar l ->
  - 128 * n <= acc <= 127 * n -> 0 <= n -> n + Z.of_nat (length l) <= 255 ->
  fold_left (fun a t => s16 (a + t)) l acc = acc + sum_temps l.
Proof.
  induction l as [|t l IH]; intros acc n Hl Ha Hn Hlen.
  - cbn [fold_left sum_temps foldr]. lia.
  - apply Forall_cons in Hl as [Ht Hl]. cbn [fold_left length] in *.
    unfold is_schar in Ht.
    assert (E : s16 (acc + t) = acc + t).
    { unfold s16. rewrite Z.mod_small by lia. lia. }
    rewrite E, (IH _ (n + 1)) by (done || lia).
    cbn [sum_temps foldr]. fold (sum_temps l). lia.
Qed.

(** X24. The ten-second tick publishes the mean of the 24 slots, truncated
    towards zero: the 16-bit sum cannot overflow, the mean is again a
    [signed char], and 24 equal slots give their common value back.
    Nothing else is written. *)
Theorem pack_temperature_mean st :
  length (mi_batttemps st) = 24%nat ->
  Forall is_schar (mi_batttemps st) ->
  let st' := ticker10 st in
  st'.[car_tbattery] = Z.quot (sum_temps (mi_batttemps st)) 24 /\
  is_schar st'.[car_tbattery] /\
  (forall t, mi_batttemps st = replicate 24 t -> st'.[car_tbattery] = t) /\
  (forall x, x <> car_tbattery -> st'.[x] = st.[x]) /\
  mi_batttemps st' = mi_batttemps st.
Proof.
  intros Hlen Hl st'. subst st'. unfold vehicle_mitsubishi_ticker10.
  autorewrite with store.
  pose proof (fold_seq_lookup (fun a t => s16 (a + t)) (mi_batttemps st) [] 0)
    as F.
  cbn [app length] in F. rewrite Hlen in F. rewrite F. clear F.
  rewrite (fold_temps_exact _ 0 0) by (done || lia). rewrite Z.add_0_l.
  pose proof (sum_temps_range _ Hl) as R. rewrite Hlen in R.
  assert (Q : is_schar (Z.quot (sum_temps (mi_batttemps st)) 24)).
  { assert (Q1 : Z.quot (-3072) 24 <= Z.quot (sum_temps (mi_batttemps st)) 24)
      by (apply Z.quot_le_mono; lia).
    assert (Q2 : Z.quot (sum_temps (mi_batttemps st)) 24 <= Z.quot 3048 24)
      by (apply Z.quot_le_mono; lia).
    change (Z.quot (-3072) 24) with (-128) in Q1.
    change (Z.quot 3048 24) with 127 in Q2.
    unfold is_schar. lia. }
  assert (E : s8 (Z.quot (sum_temps (mi_batttemps st)) 24)
              = Z.quot (sum_temps (mi_batttemps st)) 24).
  { unfold is_schar in Q. unfold s8. rewrite Z.mod_small by lia. lia. }
  rewrite E. split; [reflexivity|]. split; [exact Q|].
  split; [|split; [|reflexivity]].
  - intros t Ht. rewrite Ht.
    replace (sum_temps (replicate 24 t)) with (t * 24)
      by (cbn; lia).
    apply Z.quot_mul. lia.
  - intros x Hx. by rewrite get_set_ne.
Qed.

(** After every tick the cooling-pump flag tells whether the temperature
    stale counter stands above 1. *)
Lemma cooling_pump_flag st :
  Z.land (ticker1 st).[car_doors3] CoolingPump
  = (if bool_decide (st.[car_stale_temps] <= 1) then 0 else CoolingPump).
Proof.
  rewrite ticker1_get_stale by reflexivity.
  unfold stale_tickers. cbv zeta. unfold CoolingPump.
  repeat case_bool_decide; autorewrite with store;
    rewrite ?land_lor_disjoint, ?land_clear_disjoint by done;
    first [by apply land_clear_within | by apply land_lor_within].
Qed.

(** X23. The motor and inverter temperature frames: a byte up to 127 decodes to
    the byte less 40, between -40 and 87, for both; either frame restarts
    the temperature stale counter at 60, so that the next tick reports the
    cooling-pump flag. *)
Theorem temperature_decoding f st :
  can_id f = 0x286 \/ can_id f = 0x298 ->
  data f 3 <= 127 ->
  let st' := poll1 f st in
  (can_id f = 0x286 -> st'.[car_tpem] = data f 3 - 40) /\
  (can_id f = 0x298 -> st'.[car_tmotor] = data f 3 - 40) /\
  st'.[car_stale_temps] = 60 /\
  Z.land (ticker1 st').[car_doors3] CoolingPump = CoolingPump.
Proof.
  intros Hid Hb st'. subst st'.
  pose proof (data_range f 3) as R.
  assert (S : (poll1 f st).[car_stale_temps] = 60).
  { unfold vehicle_mitsubishi_poll1. cbv zeta.
    destruct Hid as [-> | ->];
      repeat case_bool_decide; try done; by autorewrite with store. }
  split; [|split; [|split]].
  - intros E. unfold vehicle_mitsubishi_poll1. cbv zeta. rewrite E.
    repeat case_bool_decide; try done. autorewrite with store.
    unfold s8. rewrite (Z.mod_small (data f 3 + 2 ^ 7)) by lia.
    rewrite Z.mod_small by lia. lia.
  - intros E. unfold vehicle_mitsubishi_poll1. cbv zeta. rewrite E.
    repeat case_bool_decide; try done. autorewrite with store.
    rewrite u8_small by lia. unfold s8. rewrite Z.mod_small by lia. lia.
  - exact S.
  - rewrite cooling_pump_flag, S. reflexivity.
Qed.

(** *** Charging: quick charge, stale signals, duration *)

(** X3. A quick charge starts whatever the charger signals read: the state
    becomes charging with the limit 125, duration and kWh at 0 and one
    status notification. *)
Theorem quick_charge_starts st :
  (stale_tickers st).[mi_quick_charge] = 1 ->
  Z.land st.[car_doors1] 0x08 = 0 ->
  let st' := ticker1 st in
  st'.[car_chargestate] = 1 /\ st'.[car_chargesubstate] = 3 /\
  st'.[car_chargelimit] = 125 /\
  st'.[car_chargeduration] = 0 /\ st'.[car_chargekwh] = 0 /\
  Z.land st'.[car_doors1] 0x1c = 0x1c /\
  net_notify st' = net_notify st ++ [NET_NOTIFY_STAT].
Proof.
  intros Hq Hp st'. subst st'.
  rewrite <- (before_charge_same st car_doors1) in Hp by reflexivity.
  enter_charge st s2.
  repeat split; try reflexivity.
  by rewrite land_lor_within.
Qed.

(** X4. While a quick charge goes on no energy is accounted.  On a tick
    entered with the quick-charge flag and the pilot flag set and the
    charge stale timer not at 1 (every sentinel frame sets it back to 30),
    the kWh and the watt-minutes stay as they are, whatever the charger
    signals; the flag, the charge state and the substate are kept, nothing
    is notified, and the duration goes on counting the minutes.  The tick
    that finds the stale timer at 1 ends the charge instead. *)
Theorem quick_charge_no_energy st :
  st.[mi_quick_charge] = 1 ->
  0 <= st.[mi_stale_charge] < 2 ^ 8 ->
  st.[mi_stale_charge] <> 1 ->
  Z.land st.[car_doors1] 0x08 <> 0 ->
  0 <= st.[mi_charge_timer] < 255 ->
  let st' := ticker1 st in
  st'.[mi_quick_charge] = 1 /\
  st'.[car_chargekwh] = st.[car_chargekwh] /\
  st'.[mi_charge_wm] = st.[mi_charge_wm] /\
  st'.[car_chargestate] = st.[car_chargestate] /\
  st'.[car_chargesubstate] = st.[car_chargesubstate] /\
  st'.[car_chargeduration]
  = (if bool_decide (st.[mi_charge_timer] + 1 >= 60)
     then minutes_wrap (st.[car_chargeduration] + 1)
     else st.[car_chargeduration]) /\
  st'.[mi_charge_timer]
  = (if bool_decide (st.[mi_charge_timer] + 1 >= 60)
     then 0 else st.[mi_charge_timer] + 1) /\
  net_notify st' = net_notify st.
Proof.
  intros Hq Hr Hs Hp Ht st'. subst st'.
  destruct (stale_charge_quiet st Hr Hs) as (Q & _ & _).
  rewrite <- Q in Hq. clear Q Hr Hs.
  split.
  { rewrite ticker1_get_stale by reflexivity. exact Hq. }
  rewrite <- (before_charge_same st car_doors1) in Hp by reflexivity.
  rewrite <- (before_charge_same st mi_charge_timer) in Ht by reflexivity.
  rewrite <- !(before_charge_same st mi_charge_timer) by reflexivity.
  rewrite <- !(before_charge_same st car_chargeduration) by reflexivity.
  rewrite !ticker1_charge.
  pose proof (before_charge_same st) as Fsame.
  pose proof (before_charge_notify st) as Fnotify.
  rewrite <- (before_charge_stale st mi_quick_charge) in Hq by reflexivity.
  rewrite <- (Fsame car_chargekwh), <- (Fsame mi_charge_wm),
    <- (Fsame car_chargestate), <- (Fsame car_chargesubstate), <- Fnotify
    by reflexivity.
  generalize dependent (before_charge st). intros s2 Hp Ht Hq _ _.
  unfold charge_state_determination. cbv zeta.
  rewrite (bool_decide_eq_true_2 (s2.[mi_quick_charge] = 1 \/ _)) by (by left).
  autorewrite with store.
  rewrite (bool_decide_eq_false_2 (Z.land s2.[car_doors1] 8 = 0)) by done.
  autorewrite with store.
  rewrite (u8_small (s2.[mi_charge_timer] + 1)) by lia.
  case_bool_decide; autorewrite with store.
  - rewrite (bool_decide_eq_false_2 (s2.[mi_quick_charge] = 0)) by lia.
    autorewrite with store. repeat split; reflexivity.
  - repeat split; reflexivity.
Qed.

(** X6. The tick on which the charge stale timer runs out reads the charger
    as gone: a charge with the pilot flag set ends on that tick, as
    interrupted below 95 % and as done from 95 % on, whatever current,
    voltage and quick-charge flag stood in the store. *)
Theorem charge_stale_expiry st :
  st.[mi_stale_charge] = 1 ->
  Z.land st.[car_doors1] 0x08 <> 0 ->
  let st' := vehicle_mitsubishi_ticker1 MiFromKm udiv0 st in
  st'.[car_linevoltage] = 0 /\ st'.[car_chargecurrent] = 0 /\
  st'.[mi_quick_charge] = 0 /\
  st'.[car_chargestate] = (if bool_decide (st.[car_SOC] < 95) then 21 else 4) /\
  Z.land st'.[car_doors1] 0x18 = 0 /\
  net_notify st' = net_notify st ++ [NET_NOTIFY_CHARGE; NET_NOTIFY_STAT].
Proof.
  intros Ht Hp st'. subst st'.
  destruct (stale_charge_fires st Ht) as (Q & V & C).
  rewrite !ticker1_get_stale by reflexivity. rewrite Q, V, C.
  pose proof (stop_voltage_absent st) as S. cbv zeta in S.
  rewrite Q, V, C in S.
  assert (Hp' : Z.land (stale_tickers st).[car_doors1] 8 <> 0)
    by (by rewrite stale_tickers_frame by reflexivity).
  destruct (S eq_refl eq_refl eq_refl Hp') as (A & _ & B & _ & _ & _ & N).
  repeat split; assumption.
Qed.

Lemma ticks_stale_timer n st :
  0 <= st.[mi_stale_charge] < 2 ^ 8 ->
  (ticks n st).[mi_stale_charge] = Z.max 0 (st.[mi_stale_charge] - Z.of_nat n).
Proof.
  intros H. induction n as [|n IH].
  - rewrite ticks_0. lia.
  - rewrite ticks_S, ticker1_get_stale by reflexivity.
    rewrite stale_charge_timer by lia. lia.
Qed.

Lemma stale_expiry_clears_pilot st :
  st.[mi_stale_charge] = 1 ->
  Z.land (ticker1 st).[car_doors1] 0x08 = 0.
Proof.
  intros Ht.
  destruct (stale_charge_fires st Ht) as (Q & V & C).
  rewrite ticker1_charge.
  rewrite <- (before_charge_stale st) in Q, V, C by reflexivity.
  generalize dependent (before_charge st). intros s2 Q V C.
  unfold charge_state_determination. cbv zeta.
  repeat decide_branch ltac:(autorewrite with store; intuition lia).
  assert (P : forall d, Z.land (Z.land d (Z.lnot ChargePort)) 8 = Z.land d 8)
    by (intros d; by apply land_clear_disjoint).
  case_bool_decide as Hp; autorewrite with store; rewrite ?P.
  - case_bool_decide; autorewrite with store; rewrite ?P;
      unfold ChargePort; rewrite land_lor_disjoint by done;
      by apply land_clear_within.
  - destruct (decide (Z.land s2.[car_doors1] 8 = 0)); [done|contradiction].
Qed.

(** X7. A charge cannot hang: [t] ticks after the charge stale timer was last
    set to [t], with no charger or sentinel frame in between, the pilot
    flag is clear and voltage, current and quick-charge flag read 0. *)
Theorem charge_never_hangs st :
  1 <= st.[mi_stale_charge] < 2 ^ 8 ->
  let s := ticks (Z.to_nat st.[mi_stale_charge]) st in
  Z.land s.[car_doors1] 0x08 = 0 /\
  s.[car_linevoltage] = 0 /\ s.[car_chargecurrent] = 0 /\
  s.[mi_quick_charge] = 0 /\ s.[mi_stale_charge] = 0.
Proof.
  intros Ht s. subst s.
  replace (Z.to_nat st.[mi_stale_charge])
    with (S (Z.to_nat (st.[mi_stale_charge] - 1))) by lia.
  rewrite ticks_S.
  pose proof (ticks_stale_timer (Z.to_nat (st.[mi_stale_charge] - 1)) st
                ltac:(lia)) as T.
  rewrite Z2Nat.id in T by lia.
  replace (Z.max 0 (st.[mi_stale_charge] - (st.[mi_stale_charge] - 1)))
    with 1 in T by lia.
  generalize dependent (ticks (Z.to_nat (st.[mi_stale_charge] - 1)) st).
  intros s T.
  destruct (stale_charge_fires s T) as (Q & V & C).
  rewrite !(ticker1_get_stale s mi_quick_charge),
    !(ticker1_get_stale s car_linevoltage),
    !(ticker1_get_stale s car_chargecurrent),
    !(ticker1_get_stale s mi_stale_charge) by reflexivity.
  rewrite stale_charge_timer by lia.
  split; [by apply stale_expiry_clears_pilot|].
  repeat split; try assumption. lia.
Qed.

(** X8. The stale action clears the quick-charge flag but leaves the filter
    counter: after a confirmed quick charge (counter 0) has gone stale, a
    single sentinel frame at standstill sets the flag again. *)
Theorem quick_charge_after_stale f st :
  st.[mi_qc_counter] = 0 -> st.[mi_stale_charge] = 1 ->
  confirming st f ->
  (ticker1 st).[mi_quick_charge] = 0 /\
  (ticker1 st).[mi_qc_counter] = 0 /\
  (poll0 f (ticker1 st)).[mi_quick_charge] = 1.
Proof.
  intros Hc Ht Hf.
  destruct (stale_charge_fires st Ht) as (Q & _ & _).
  rewrite <- (ticker1_get_stale st mi_quick_charge) in Q by reflexivity.
  pose proof (ticker1_other st mi_qc_counter eq_refl eq_refl eq_refl) as C.
  pose proof (ticker1_other st car_speed eq_refl eq_refl eq_refl) as S.
  rewrite Hc in C.
  assert (Hf' : confirming (ticker1 st) f).
  { unfold confirming, sentinel in *. by rewrite S. }
  generalize dependent (ticker1 st). intros s Q C _ Hf'.
  destruct (poll0_confirming f s Hf' ltac:(lia)) as [_ q].
  rewrite C in q. rewrite bool_decide_eq_true_2 in q by lia.
  done.
Qed.

(** *** Awake and asleep *)

Lemma ticks_candata_timer n st :
  0 <= st.[mi_candata_timer] < 2 ^ 8 ->
  (ticks n st).[mi_candata_timer]
  = Z.max 0 (st.[mi_candata_timer] - Z.of_nat n).
Proof.
  intros H. induction n as [|n IH].
  - rewrite ticks_0. lia.
  - rewrite ticks_S, ticker1_get_stale by reflexivity.
    rewrite stale_candata_timer by lia. lia.
Qed.

Lemma awake_window_from n st :
  st.[mi_candata_timer] = 60 ->
  ((1 <= n <= 59)%nat -> Z.land (ticks n st).[car_doors3] 0x01 = 1) /\
  (n = 60%nat -> Z.land (ticks n st).[car_doors3] 0x01 = 0).
Proof.
  intros H. destruct n as [|n]; [split; [lia|discriminate]|].
  rewrite ticks_S, ticker1_get_stale by reflexivity.
  pose proof (ticks_candata_timer n st ltac:(lia)) as T. rewrite H in T.
  generalize dependent (ticks n st). intros s T.
  split; intros Hn.
  - apply stale_candata_awake; lia.
  - apply stale_candata_asleep. lia.
Qed.

(** X9. After any frame, on either channel, the car is reported awake from the
    first to the 59th tick without a further frame, and asleep on the
    60th. *)
Theorem awake_window f st n :
  ((1 <= n <= 59)%nat ->
     Z.land (ticks n (poll0 f st)).[car_doors3] 0x01 = 1 /\
     Z.land (ticks n (poll1 f st)).[car_doors3] 0x01 = 1) /\
  (n = 60%nat ->
     Z.land (ticks n (poll0 f st)).[car_doors3] 0x01 = 0 /\
     Z.land (ticks n (poll1 f st)).[car_doors3] 0x01 = 0).
Proof.
  destruct (awake_window_from n (poll0 f st) (poll0_candata f st)) as [A0 S0].
  destruct (awake_window_from n (poll1 f st) (poll1_candata f st)) as [A1 S1].
  split; intros H; split; auto.
Qed.

(** *** The published range outside a quick charge *)

(** X13. Outside a quick charge, in miles mode, the tick publishes the raw
    range unless it is the sentinel 255, in which case the published range
    is left as it was; so the sentinel is never newly published. *)
Theorem normal_range_published st :
  (stale_tickers st).[mi_quick_charge] <> 1 ->
  st.[can_mileskm] <> 75 ->
  let st' := ticker1 st in
  (st.[mi_estrange] <> 255 -> st'.[car_estrange] = st.[mi_estrange]) /\
  (st.[mi_estrange] = 255 -> st'.[car_estrange] = st.[car_estrange]) /\
  (st.[car_estrange] <> 255 -> st'.[car_estrange] <> 255).
Proof.
  intros Hq Hm st'. subst st'. rewrite !ticker1_get_range by reflexivity.
  pose proof (stale_tickers_frame st) as G.
  rewrite <- (G can_mileskm), <- !(G mi_estrange), <- !(G car_estrange)
    in * by reflexivity.
  generalize dependent (stale_tickers st). intros s1 Hq Hm _.
  unfold range_update. cbv zeta.
  rewrite (bool_decide_eq_false_2 _ Hq).
  rewrite (bool_decide_eq_false_2 _ Hm).
  split; [|split]; intros H;
    repeat case_bool_decide; autorewrite with store in *; try done; lia.
Qed.

(** *** The duration of a charge *)

(** X5. Over a run of charging minutes outside quick charge the duration
    counts the minutes, the watt-minute remainder stays below 60000, the
    charge state stays as it is and nothing is notified. *)
Theorem charge_duration_counts fs : forall st,
  Forall charging_frame fs -> ongoing st ->
  st.[mi_charge_timer] = 0 -> st.[mi_charge_wm] = 0 ->
  st.[car_chargekwh] = 0 -> st.[car_chargeduration] = 0 ->
  Z.of_nat (length fs) < 2 ^ 16 ->
  let st' := charge_minutes fs st in
  st'.[car_chargeduration] = Z.of_nat (length fs) /\
  0 <= st'.[mi_charge_wm] < 60000 /\
  st'.[car_chargestate] = st.[car_chargestate] /\
  net_notify st' = net_notify st.
Proof.
  intros st Hfs Ho Ht Hw Hk Hd Hlen st'. subst st'.
  destruct (charge_minutes_total fs st 0 Hfs Ho Ht ltac:(lia) Hw Hk) as [W _].
  cbv zeta in W. rewrite Z.add_0_l in W.
  split; [|split].
  2: { rewrite W. apply Z.mod_pos_bound. lia. }
  - clear W Hw Hk.
    assert (G : forall d, 0 <= d -> d + Z.of_nat (length fs) < 2 ^ 16 ->
              st.[car_chargeduration] = d ->
              (charge_minutes fs st).[car_chargeduration]
              = d + Z.of_nat (length fs)).
    { clear Hd Hlen. revert st Ho Ht.
      induction fs as [|f fs IH]; intros st Ho Ht d Hd0 Hlen Hd.
      - cbn [length]. change (charge_minutes [] st) with st. lia.
      - rewrite charge_minutes_cons.
        apply Forall_cons in Hfs as [Hf Hfs].
        destruct (charge_minute_ongoing f st Hf Ho Ht)
          as (O & _ & _ & T & D & _).
        rewrite Hd in D. unfold minutes_wrap in D.
        cbn [length] in Hlen. rewrite u16_small in D by lia.
        generalize dependent (charge_minute f st). intros s O T D.
        rewrite (IH Hfs s O T (d + 1)) by (done || lia).
        cbn [length]. lia. }
    rewrite (G 0) by (done || lia). lia.
  - clear W Hw Hk Hd Hlen. revert st Ho Ht.
    induction fs as [|f fs IH]; intros st Ho Ht.
    + change (charge_minutes [] st) with st. done.
    + rewrite charge_minutes_cons.
      apply Forall_cons in Hfs as [Hf Hfs].
      destruct (charge_minute_ongoing f st Hf Ho Ht)
        as (O & S & N & T & _).
      generalize dependent (charge_minute f st). intros s O S N T.
      destruct (IH Hfs s O T) as [S' N']. split; congruence.
Qed.

(** *** Start and end of a standard charge *)

(** X2. A standard charge starts on any non-zero current with the line voltage
    above 100: the state becomes charging in standard mode with the limit
    16, duration and kWh at 0, the port, pilot and charging flags and the
    12 V flag set, and one status notification. *)
Theorem standard_charge_starts st :
  let s := stale_tickers st in
  s.[car_chargecurrent] <> 0 -> s.[car_linevoltage] > 100 ->
  s.[mi_quick_charge] <> 1 ->
  Z.land st.[car_doors1] 0x08 = 0 ->
  let st' := ticker1 st in
  st'.[car_chargestate] = 1 /\ st'.[car_chargesubstate] = 3 /\
  st'.[car_chargemode] = 0 /\ st'.[car_chargelimit] = 16 /\
  st'.[car_chargeduration] = 0 /\ st'.[car_chargekwh] = 0 /\
  Z.land st'.[car_doors1] 0x1c = 0x1c /\
  Z.land st'.[car_doors5] Charging12V = Charging12V /\
  net_notify st' = net_notify st ++ [NET_NOTIFY_STAT].
Proof.
  intros s Hc Hv Hq Hp st'. subst s st'.
  rewrite <- (before_charge_same st car_doors1) in Hp by reflexivity.
  enter_charge st s2.
  repeat split; try reflexivity; by rewrite land_lor_within.
Qed.

(** X1. The end of a standard charge, read with current 0 and the pilot flag
    set.  With the line voltage below 100 the charge is interrupted below
    95 % and done from 95 % on, and the port flag goes with the charge and
    pilot flags; with the line voltage above 100 and the pack at 100 % the
    charge is done and the port flag stays.  Either way the per-second
    timer and the watt-minutes are reset, the reported duration and kWh
    are kept, and the charge notification goes out before the status
    notification. *)
Theorem charge_stop_transitions st :
  let s := stale_tickers st in
  s.[car_chargecurrent] = 0 -> s.[mi_quick_charge] = 0 ->
  Z.land st.[car_doors1] 0x08 <> 0 ->
  let st' := ticker1 st in
  (s.[car_linevoltage] < 100 ->
     st'.[car_chargestate] = (if bool_decide (st.[car_SOC] < 95) then 21 else 4) /\
     st'.[car_chargesubstate] = (if bool_decide (st.[car_SOC] < 95) then 14 else 3) /\
     Z.land st'.[car_doors1] 0x1c = 0 /\
     st'.[mi_charge_timer] = 0 /\ st'.[mi_charge_wm] = 0 /\
     st'.[car_chargeduration] = st.[car_chargeduration] /\
     st'.[car_chargekwh] = st.[car_chargekwh] /\
     net_notify st' = net_notify st ++ [NET_NOTIFY_CHARGE; NET_NOTIFY_STAT]) /\
  (s.[car_linevoltage] > 100 -> st.[car_SOC] = 100 ->
     st'.[car_chargestate] = 4 /\ st'.[car_chargesubstate] = 3 /\
     Z.land st'.[car_doors1] 0x1c = ChargePort /\
     st'.[mi_charge_timer] = 0 /\ st'.[mi_charge_wm] = 0 /\
     st'.[car_chargeduration] = st.[car_chargeduration] /\
     st'.[car_chargekwh] = st.[car_chargekwh] /\
     net_notify st' = net_notify st ++ [NET_NOTIFY_CHARGE; NET_NOTIFY_STAT]).
Proof.
  intros s Hc Hq Hp st'. subst s st'.
  rewrite <- (before_charge_same st car_doors1) in Hp by reflexivity.
  split.
  - intros Hv.
    rewrite <- !(before_charge_same st car_SOC) by reflexivity.
    enter_charge st s2.
    assert (D : forall d, Z.land (Z.land (Z.lor (Z.land d (Z.lnot 24)) ChargePort)
                                         (Z.lnot ChargePort)) 28 = 0).
    { intros d. apply Z.bits_inj'. intros n Hn.
      rewrite !Z.land_spec, Z.lor_spec, Z.land_spec, !Z.lnot_spec by done.
      rewrite Z.bits_0.
      change (Z.testbit 28 n)
        with (Z.testbit (Z.lor 24 ChargePort) n).
      rewrite Z.lor_spec.
      destruct (Z.testbit d n), (Z.testbit 24 n), (Z.testbit ChargePort n);
        reflexivity. }
    case_bool_decide; autorewrite with store;
      rewrite ?Fsame, ?Fnotify, <- ?app_assoc by reflexivity;
      repeat split; try reflexivity; apply D.
  - intros Hv Hs.
    rewrite <- (before_charge_same st car_SOC) in Hs by reflexivity.
    enter_charge st s2.
    assert (D : forall d, Z.land (Z.lor (Z.land d (Z.lnot 24)) ChargePort) 28
                          = ChargePort).
    { intros d. apply Z.bits_inj'. intros n Hn.
      rewrite Z.land_spec, Z.lor_spec, Z.land_spec, Z.lnot_spec by done.
      change (Z.testbit 28 n)
        with (Z.testbit (Z.lor 24 ChargePort) n).
      rewrite Z.lor_spec.
      assert (X : Z.testbit 24 n && Z.testbit ChargePort n = false).
      { rewrite <- Z.land_spec. change (Z.land 24 ChargePort) with 0.
        apply Z.bits_0. }
      destruct (Z.testbit d n), (Z.testbit 24 n), (Z.testbit ChargePort n);
        done. }
    rewrite <- ?app_assoc.
    repeat split; try reflexivity; apply D.
Qed.

End Properties.

(** ** The properties at concrete states *)

Local Abbreviation tick := (vehicle_mitsubishi_ticker1 MiFromKm_ref udiv0_ref).

(** C9 at the balancing pause at 70 %, the stale timer at 30. *)
Lemma C9_witness :
  (balancing_pause.[car_chargecurrent] = 0 /\
   balancing_pause.[car_linevoltage] > 100 /\
   balancing_pause.[mi_quick_charge] <> 1 /\
   Z.land balancing_pause.[car_doors1] 0x08 <> 0 /\
   balancing_pause.[car_SOC] < 100 /\
   0 <= balancing_pause.[mi_stale_charge] < 2 ^ 8 /\
   balancing_pause.[mi_stale_charge] <> 1) /\
  (tick balancing_pause).[car_chargestate] = balancing_pause.[car_chargestate].
Proof.
  assert (H1 : balancing_pause.[car_chargecurrent] = 0)
    by (vm_compute; reflexivity).
  assert (H2 : balancing_pause.[car_linevoltage] > 100)
    by (vm_compute; reflexivity).
  assert (H3 : balancing_pause.[mi_quick_charge] <> 1)
    by (vm_compute; discriminate).
  assert (H4 : Z.land balancing_pause.[car_doors1] 0x08 <> 0)
    by (vm_compute; discriminate).
  assert (H5 : balancing_pause.[car_SOC] < 100)
    by (vm_compute; reflexivity).
  assert (H6 : 0 <= balancing_pause.[mi_stale_charge] < 2 ^ 8)
    by (vm_compute; split; [discriminate | reflexivity]).
  assert (H7 : balancing_pause.[mi_stale_charge] <> 1)
    by (vm_compute; discriminate).
  exact (conj (conj H1 (conj H2 (conj H3 (conj H4 (conj H5 (conj H6 H7))))))
           (proj1 (proj2 (C9_balancing_pause_keeps_charge MiFromKm_ref udiv0_ref
                            balancing_pause H1 H2 H3 H4 H5 H6 H7)))).
Defined.

(** C9 as stated fails when the charger signals expire on the tick: at the
    same pause with the stale timer at 1 (29 seconds after the last charger
    frame) the tick reads the charger as gone, declares the charge
    interrupted and notifies. *)
Lemma C9_counterexample :
  pause_going_stale.[car_chargecurrent] = 0 /\
  pause_going_stale.[car_linevoltage] > 100 /\
  pause_going_stale.[mi_quick_charge] <> 1 /\
  Z.land pause_going_stale.[car_doors1] 0x08 <> 0 /\
  pause_going_stale.[car_SOC] < 100 /\
  pause_going_stale.[car_chargestate] = 1 /\
  pause_going_stale.[car_chargesubstate] = 3 /\
  (tick pause_going_stale).[car_chargestate] = 21 /\
  (tick pause_going_stale).[car_chargesubstate] = 14 /\
  (tick pause_going_stale).[car_doors1] <> pause_going_stale.[car_doors1] /\
  net_notify (tick pause_going_stale)
  = net_notify pause_going_stale ++ [NET_NOTIFY_CHARGE; NET_NOTIFY_STAT].
Proof.
  vm_compute. repeat split; (reflexivity || discriminate).
Qed.

(** C1 at the boundary: the charge at 80 % with 100 V and no current stays
    reported as charging (state 1), flags set. *)
Lemma C1_witness :
  ((stale_tickers voltage_at_100).[car_chargecurrent] = 0 /\
   (stale_tickers voltage_at_100).[car_linevoltage] = 100 /\
   (stale_tickers voltage_at_100).[mi_quick_charge] <> 1) /\
  (tick voltage_at_100).[car_chargestate] = voltage_at_100.[car_chargestate] /\
  voltage_at_100.[car_chargestate] = 1 /\
  Z.land voltage_at_100.[car_doors1] 0x08 <> 0 /\
  voltage_at_100.[car_SOC] < 95.
Proof.
  assert (H1 : (stale_tickers voltage_at_100).[car_chargecurrent] = 0)
    by (vm_compute; reflexivity).
  assert (H2 : (stale_tickers voltage_at_100).[car_linevoltage] = 100)
    by (vm_compute; reflexivity).
  assert (H3 : (stale_tickers voltage_at_100).[mi_quick_charge] <> 1)
    by (vm_compute; discriminate).
  assert (H4 : voltage_at_100.[car_chargestate] = 1) by reflexivity.
  assert (H5 : Z.land voltage_at_100.[car_doors1] 0x08 <> 0)
    by (vm_compute; discriminate).
  assert (H6 : voltage_at_100.[car_SOC] < 95) by reflexivity.
  exact (conj (conj H1 (conj H2 H3))
           (conj (proj1 (proj2 (C1_boundary_voltage_100_not_handled
                                  MiFromKm_ref udiv0_ref voltage_at_100
                                  H1 H2 H3)))
              (conj H4 (conj H5 H6)))).
Defined.

(** C6 at the quick charge at 15 %: the stored anchor (80 %, 60) is good,
    and the tick replaces it by the fallback. *)
Lemma C6_witness :
  (stale_tickers quick_charge_at_15).[mi_quick_charge] = 1 /\
  10 < quick_charge_at_15.[car_SOC] < 20 /\
  quick_charge_at_15.[mi_last_good_SOC] = 80 /\
  (tick quick_charge_at_15).[mi_last_good_SOC] = 20 /\
  (tick quick_charge_at_15).[mi_last_good_range] = 8.
Proof.
  assert (H1 : (stale_tickers quick_charge_at_15).[mi_quick_charge] = 1)
    by (vm_compute; reflexivity).
  assert (H2 : 10 < quick_charge_at_15.[car_SOC] < 20)
    by (vm_compute; split; reflexivity).
  destruct (C6_fallback_keyed_on_current_SOC MiFromKm_ref udiv0_ref
              quick_charge_at_15 H1) as [A _].
  destruct (A H2) as (A1 & A2 & _).
  assert (H3 : quick_charge_at_15.[mi_last_good_SOC] = 80) by reflexivity.
  exact (conj H1 (conj H2 (conj H3 (conj A1 A2)))).
Defined.

(** C7 as stated fails at a quick charge at 15 % on a module that never
    took an anchor (the stored pair is (0, 0), too low to extrapolate from):
    the tick installs the fallback anchor although the state of charge is
    below 20 and the range it publishes below 5. *)
Lemma C7_counterexample :
  quick_charge_no_anchor.[mi_last_good_SOC] = 0 /\
  quick_charge_no_anchor.[mi_last_good_range] = 0 /\
  (tick quick_charge_no_anchor).[mi_last_good_SOC] = 20 /\
  (tick quick_charge_no_anchor).[mi_last_good_range] = 8 /\
  quick_charge_no_anchor.[car_SOC] = 15 /\
  (tick quick_charge_no_anchor).[car_estrange] = 4 /\
  ~ (((tick quick_charge_no_anchor).[mi_last_good_SOC]
      <> quick_charge_no_anchor.[mi_last_good_SOC]
      \/ (tick quick_charge_no_anchor).[mi_last_good_range]
         <> quick_charge_no_anchor.[mi_last_good_range]) ->
     quick_charge_no_anchor.[car_SOC] >= 20 /\
     (tick quick_charge_no_anchor).[car_estrange] >= 5).
Proof.
  do 6 (split; [vm_compute; reflexivity|]).
  intros H. destruct H as [H _].
  - left. vm_compute. discriminate.
  - vm_compute in H. apply H. reflexivity.
Qed.

(** C8 at a module in use: the listed variables are reset. *)
Lemma C8_witness :
  length (mi_batttemps in_use) = 24%nat /\
  (vehicle_mitsubishi_initialise NET_FN_INTERNALGPS_ref NET_FN_12VMONITOR_ref
     in_use).[mi_qc_counter] = 3 /\
  mi_batttemps
    (vehicle_mitsubishi_initialise NET_FN_INTERNALGPS_ref NET_FN_12VMONITOR_ref
       in_use) = replicate 24 0.
Proof.
  assert (H : length (mi_batttemps in_use) = 24%nat) by reflexivity.
  destruct (C8_initialise_resets NET_FN_INTERNALGPS_ref NET_FN_12VMONITOR_ref
              in_use H) as (_ & _ & _ & _ & A & B & _).
  exact (conj H (conj A B)).
Defined.

(** C8 as stated fails there: the per-second charge timer, the watt-minute
    accumulator and the anchor come out of the initialisation as they went
    in, not at zero. *)
Lemma C8_counterexample :
  let st' := vehicle_mitsubishi_initialise NET_FN_INTERNALGPS_ref
               NET_FN_12VMONITOR_ref in_use in
  st'.[mi_charge_timer] <> 0 /\ st'.[mi_charge_wm] <> 0 /\
  st'.[mi_last_good_SOC] <> 0 /\ st'.[mi_last_good_range] <> 0.
Proof. vm_compute. repeat split; discriminate. Qed.

(** C10 at bank 3: slots 4 and 5 take the temperatures. *)
Lemma C10_witness :
  can_id bank_3_temps = 0x6e1 /\
  length (mi_batttemps power_on) = 24%nat /\
  1 <= data bank_3_temps 0 <= 12 /\
  mi_batttemps (vehicle_mitsubishi_poll1 MiFromKm_ref bank_3_temps power_on)
    !! Z.to_nat (2 * data bank_3_temps 0 - 2)
  = Some (s8 (data bank_3_temps 2 - 50)).
Proof.
  assert (H1 : can_id bank_3_temps = 0x6e1) by reflexivity.
  assert (H2 : length (mi_batttemps power_on) = 24%nat) by reflexivity.
  assert (H3 : 1 <= data bank_3_temps 0 <= 12)
    by (vm_compute; split; discriminate).
  destruct (C10_battery_temperature_frame MiFromKm_ref bank_3_temps power_on
              H1 H2) as [_ A].
  destruct (A H3) as (_ & A1 & _).
  exact (conj H1 (conj H2 (conj H3 A1))).
Defined.

(** C5 at timers of 3 and 2 seconds, two ticks on. *)
Lemma C5_witness :
  0 <= going_quiet.[mi_stale_charge] < 2 ^ 8 /\
  0 <= going_quiet.[mi_candata_timer] < 2 ^ 8 /\
  (ticks MiFromKm_ref udiv0_ref 2 going_quiet).[mi_stale_charge]
  = Z.max 0 (going_quiet.[mi_stale_charge] - Z.of_nat 2).
Proof.
  assert (H1 : 0 <= going_quiet.[mi_stale_charge] < 2 ^ 8)
    by (vm_compute; split; [discriminate | reflexivity]).
  assert (H2 : 0 <= going_quiet.[mi_candata_timer] < 2 ^ 8)
    by (vm_compute; split; [discriminate | reflexivity]).
  split; [exact H1|]. split; [exact H2|].
  exact (proj1 (C5_staleness_timers MiFromKm_ref udiv0_ref going_quiet 2 H1 H2)).
Defined.

(** C2 at a stationary car: from the disconfirmed state the range frames
    255, 255, 100, 255, 255 turn the quick-charge flag on, with no three
    sentinel frames in a row. *)
Lemma C2_witness :
  (plugged_in.[mi_qc_counter] = 3 /\ plugged_in.[mi_quick_charge] = 0 /\
   confirming plugged_in range_255 /\ disconfirming plugged_in range_100) /\
  with_dropouts 1 range_255 range_100
  = [range_255; range_255; range_100; range_255; range_255] /\
  (run_poll0 (with_dropouts 1 range_255 range_100) plugged_in).[mi_quick_charge]
  = 1 /\
  three_in_a_row
    (observations plugged_in (with_dropouts 1 range_255 range_100)) = false.
Proof.
  assert (Hc : plugged_in.[mi_qc_counter] = 3) by reflexivity.
  assert (Hq : plugged_in.[mi_quick_charge] = 0) by reflexivity.
  assert (C : confirming plugged_in range_255)
    by (repeat split; vm_compute; reflexivity).
  assert (D : disconfirming plugged_in range_100).
  { split; [reflexivity|]. intros [H _]. vm_compute in H. discriminate H. }
  destruct (C2_filter_counts_up_and_down plugged_in range_255 range_100 1
              Hc Hq C D) as (_ & E & _ & T).
  exact (conj (conj Hc (conj Hq (conj C D)))
           (conj eq_refl (conj E (T (le_n 1))))).
Defined.

(** C4 at 50 %. *)
Lemma C4_witness :
  ((stale_tickers plugged_in).[car_linevoltage] = 150 /\
   (stale_tickers plugged_in).[car_chargecurrent] = 16 /\
   (stale_tickers plugged_in).[mi_quick_charge] = 0 /\
   Z.land plugged_in.[car_doors1] 0x08 = 0 /\
   plugged_in.[car_SOC] = 50 /\
   charger_frame charger_150V_16A /\
   frame_voltage charger_150V_16A = 150 /\
   frame_current charger_150V_16A = 16) /\
  (tick plugged_in).[car_chargestate] = 1 /\
  (charge_minute MiFromKm_ref udiv0_ref charger_150V_16A
     (tick plugged_in)).[car_chargeduration] = 1.
Proof.
  assert (H1 : (stale_tickers plugged_in).[car_linevoltage] = 150)
    by (vm_compute; reflexivity).
  assert (H2 : (stale_tickers plugged_in).[car_chargecurrent] = 16)
    by (vm_compute; reflexivity).
  assert (H3 : (stale_tickers plugged_in).[mi_quick_charge] = 0)
    by (vm_compute; reflexivity).
  assert (H4 : Z.land plugged_in.[car_doors1] 0x08 = 0)
    by (vm_compute; reflexivity).
  assert (H5 : charger_frame charger_150V_16A) by reflexivity.
  assert (H6 : frame_voltage charger_150V_16A = 150) by (vm_compute; reflexivity).
  assert (H7 : frame_current charger_150V_16A = 16) by (vm_compute; reflexivity).
  destruct (C4_charge_start_and_first_minute MiFromKm_ref udiv0_ref plugged_in
              charger_150V_16A H1 H2 H3 H4 H5 H6 H7)
    as (A & _ & _ & _ & _ & B & _).
  assert (H0 : plugged_in.[car_SOC] = 50) by reflexivity.
  exact (conj (conj H1 (conj H2 (conj H3 (conj H4 (conj H0
                 (conj H5 (conj H6 H7)))))))
           (conj A B)).
Defined.

Lemma charging_frame_150V_16A : charging_frame charger_150V_16A.
Proof. split; [reflexivity|]. split; vm_compute; (discriminate || reflexivity). Qed.

Lemma charging_frame_240V_25A : charging_frame charger_240V_25A.
Proof. split; [reflexivity|]. split; vm_compute; (discriminate || reflexivity). Qed.

Lemma ongoing_charge_started : ongoing charge_started.
Proof. split; vm_compute; (discriminate || reflexivity). Qed.

(** C3 over two minutes, one at 150 V 16 A and one at 240 V 25 A. *)
Lemma C3_witness :
  (Forall charging_frame [charger_150V_16A; charger_240V_25A] /\
   ongoing charge_started /\
   charge_started.[mi_charge_timer] = 0 /\
   charge_started.[mi_charge_wm] = 0 /\
   charge_started.[car_chargekwh] = 0 /\
   energy [charger_150V_16A; charger_240V_25A] < 2 ^ 8 * 60000) /\
  (charge_minutes MiFromKm_ref udiv0_ref [charger_150V_16A; charger_240V_25A]
     charge_started).[car_chargekwh] * 60000
  + (charge_minutes MiFromKm_ref udiv0_ref [charger_150V_16A; charger_240V_25A]
       charge_started).[mi_charge_wm]
  = energy [charger_150V_16A; charger_240V_25A].
Proof.
  assert (H1 : Forall charging_frame [charger_150V_16A; charger_240V_25A]).
  { repeat constructor;
      [apply charging_frame_150V_16A | apply charging_frame_240V_25A]. }
  assert (H2 : energy [charger_150V_16A; charger_240V_25A] < 2 ^ 8 * 60000)
    by (vm_compute; reflexivity).
  exact (conj (conj H1 (conj ongoing_charge_started
                 (conj eq_refl (conj eq_refl (conj eq_refl H2)))))
           (C3_energy_conserved MiFromKm_ref udiv0_ref _ charge_started H1
              ongoing_charge_started eq_refl eq_refl eq_refl H2)).
Defined.

(** C3 as stated fails once the kWh byte wraps: 2560 minutes at 240 V and
    25 A are 256 kWh, and the accumulators then read 0 kWh and 0
    watt-minutes. *)
Lemma C3_counterexample :
  Forall charging_frame (replicate 2560 charger_240V_25A) /\
  ongoing charge_started /\
  charge_started.[mi_charge_timer] = 0 /\
  charge_started.[mi_charge_wm] = 0 /\
  charge_started.[car_chargekwh] = 0 /\
  (charge_minutes MiFromKm_ref udiv0_ref (replicate 2560 charger_240V_25A)
     charge_started).[car_chargekwh] * 60000
  + (charge_minutes MiFromKm_ref udiv0_ref (replicate 2560 charger_240V_25A)
       charge_started).[mi_charge_wm]
  <> energy (replicate 2560 charger_240V_25A).
Proof.
  assert (H1 : Forall charging_frame (replicate 2560 charger_240V_25A))
    by (apply Forall_replicate, charging_frame_240V_25A).
  split; [exact H1|].
  split; [apply ongoing_charge_started|].
  split; [reflexivity|]. split; [reflexivity|]. split; [reflexivity|].
  destruct (charge_minutes_total MiFromKm_ref udiv0_ref _ charge_started 0 H1
              ongoing_charge_started eq_refl ltac:(reflexivity)
              eq_refl eq_refl) as [W K].
  generalize dependent
    (charge_minutes MiFromKm_ref udiv0_ref (replicate 2560 charger_240V_25A)
       charge_started).
  intros s W K. rewrite W, K.
  assert (E : energy (replicate 2560 charger_240V_25A) = 15360000)
    by (vm_compute; reflexivity).
  rewrite E. vm_compute. discriminate.
Qed.

(** ** Further properties at concrete states *)

Lemma pack_temperature_mean_witness :
  (length (mi_batttemps in_use) = 24%nat /\
   Forall is_schar (mi_batttemps in_use)) /\
  (vehicle_mitsubishi_ticker10 in_use).[car_tbattery]
  = Z.quot (sum_temps (mi_batttemps in_use)) 24.
Proof.
  assert (H1 : length (mi_batttemps in_use) = 24%nat) by reflexivity.
  assert (H2 : Forall is_schar (mi_batttemps in_use)).
  { apply (Forall_replicate is_schar 24 21). split; [discriminate|reflexivity]. }
  exact (conj (conj H1 H2) (proj1 (pack_temperature_mean in_use H1 H2))).
Defined.

Lemma ideal_range_of_SOC_witness :
  0 <= balancing_pause.[car_SOC] < 2 ^ 8 /\
  (tick balancing_pause).[car_idealrange]
  = (if bool_decide (balancing_pause.[car_SOC] <= 10) then 0
     else (balancing_pause.[car_SOC] - 10) * 104 / 100).
Proof.
  assert (H : 0 <= balancing_pause.[car_SOC] < 2 ^ 8)
    by (vm_compute; split; [discriminate | reflexivity]).
  exact (conj H (proj1 (ideal_range_of_SOC MiFromKm_ref udiv0_ref
                          balancing_pause H))).
Defined.

Lemma SOC_decoding_witness :
  can_id soc_raw_150 = 0x374 /\ 10 <= data soc_raw_150 1 /\
  (vehicle_mitsubishi_poll0 soc_raw_150 power_on).[car_SOC]
  = (data soc_raw_150 1 - 10) / 2.
Proof.
  assert (H1 : can_id soc_raw_150 = 0x374) by reflexivity.
  assert (H2 : 10 <= data soc_raw_150 1) by (vm_compute; discriminate).
  exact (conj H1 (conj H2
           (proj1 (proj1 (SOC_decoding soc_raw_150 power_on H1) H2)))).
Defined.

Lemma speed_decoding_witness :
  can_id speed_60_odo = 0x412 /\ data speed_60_odo 1 <= 200 /\
  (vehicle_mitsubishi_poll1 MiFromKm_ref speed_60_odo power_on).[car_speed]
  = data speed_60_odo 1.
Proof.
  assert (H1 : can_id speed_60_odo = 0x412) by reflexivity.
  assert (H2 : data speed_60_odo 1 <= 200) by (vm_compute; discriminate).
  exact (conj H1 (conj H2
           (proj1 (speed_decoding MiFromKm_ref speed_60_odo power_on H1) H2))).
Defined.

Lemma odometer_decoding_witness :
  can_id speed_60_odo = 0x412 /\ power_on.[can_mileskm] <> 75 /\
  (vehicle_mitsubishi_poll1 MiFromKm_ref speed_60_odo power_on).[car_odometer]
  = (data speed_60_odo 2 * 65536 + data speed_60_odo 3 * 256
     + data speed_60_odo 4) * 10.
Proof.
  assert (H1 : can_id speed_60_odo = 0x412) by reflexivity.
  assert (H2 : power_on.[can_mileskm] <> 75) by (vm_compute; discriminate).
  exact (conj H1 (conj H2
           (proj1 (proj2 (odometer_decoding MiFromKm_ref speed_60_odo
                            power_on H1)) H2))).
Defined.

Lemma park_frame_witness :
  (can_id in_park = 0x285 /\ data in_park 6 = 0x0C) /\
  Z.land (vehicle_mitsubishi_poll1 MiFromKm_ref in_park driving).[car_doors1]
         0x40 = 0x40.
Proof.
  assert (H1 : can_id in_park = 0x285) by reflexivity.
  assert (H2 : data in_park 6 = 0x0C) by (vm_compute; reflexivity).
  exact (conj (conj H1 H2)
           (proj1 (park_frame MiFromKm_ref in_park driving H1 H2))).
Defined.

Lemma park_frame_repeated_witness :
  (can_id in_park = 0x285 /\ data in_park 6 = 0x0C /\
   0 <= driving.[car_time] < 2 ^ 32 /\ driving.[car_time] <> 1) /\
  net_notify (vehicle_mitsubishi_poll1 MiFromKm_ref in_park
                (vehicle_mitsubishi_poll1 MiFromKm_ref in_park driving))
  = net_notify (vehicle_mitsubishi_poll1 MiFromKm_ref in_park driving).
Proof.
  assert (H1 : can_id in_park = 0x285) by reflexivity.
  assert (H2 : data in_park 6 = 0x0C) by (vm_compute; reflexivity).
  assert (H3 : 0 <= driving.[car_time] < 2 ^ 32)
    by (vm_compute; split; [discriminate | reflexivity]).
  assert (H4 : driving.[car_time] <> 1) by (vm_compute; discriminate).
  exact (conj (conj H1 (conj H2 (conj H3 H4)))
           (proj2 (proj1 (park_frame_repeated MiFromKm_ref in_park driving
                            H1 H2 H3) H4))).
Defined.

Lemma unpark_frame_witness :
  (can_id not_in_park = 0x285 /\ data not_in_park 6 = 0x0E) /\
  (vehicle_mitsubishi_poll1 MiFromKm_ref not_in_park driving).[car_parktime] = 0.
Proof.
  assert (H1 : can_id not_in_park = 0x285) by reflexivity.
  assert (H2 : data not_in_park 6 = 0x0E) by (vm_compute; reflexivity).
  exact (conj (conj H1 H2)
           (proj1 (proj2 (proj2 (proj2
              (unpark_frame MiFromKm_ref not_in_park driving H1 H2)))))).
Defined.

Lemma temperature_decoding_witness :
  ((can_id motor_25C = 0x286 \/ can_id motor_25C = 0x298) /\
   data motor_25C 3 <= 127) /\
  (vehicle_mitsubishi_poll1 MiFromKm_ref motor_25C power_on).[car_tmotor]
  = data motor_25C 3 - 40.
Proof.
  assert (H0 : can_id motor_25C = 0x298) by reflexivity.
  assert (H1 : can_id motor_25C = 0x286 \/ can_id motor_25C = 0x298)
    by (right; exact H0).
  assert (H2 : data motor_25C 3 <= 127) by (vm_compute; discriminate).
  exact (conj (conj H1 H2)
           (proj1 (proj2 (temperature_decoding MiFromKm_ref udiv0_ref
                            motor_25C power_on H1 H2)) H0)).
Defined.

Lemma unknown_frames_ignored_witness :
  (can_id unknown_123 <> 0x346 /\ can_id unknown_123 <> 0x374 /\
   can_id unknown_123 <> 0x389) /\
  vehicle_mitsubishi_poll0 unknown_123 driving = set mi_candata_timer 60 driving.
Proof.
  assert (H1 : can_id unknown_123 <> 0x346) by discriminate.
  assert (H2 : can_id unknown_123 <> 0x374) by discriminate.
  assert (H3 : can_id unknown_123 <> 0x389) by discriminate.
  exact (conj (conj H1 (conj H2 H3))
           (proj1 (unknown_frames_ignored MiFromKm_ref unknown_123 driving)
              H1 H2 H3)).
Defined.

Lemma ticker1_writes_only_witness :
  written (stale_vars ++ range_vars ++ charge_vars) car_SOC = false /\
  (tick balancing_pause).[car_SOC] = balancing_pause.[car_SOC].
Proof.
  assert (H : written (stale_vars ++ range_vars ++ charge_vars) car_SOC = false)
    by reflexivity.
  exact (conj H (proj1 (ticker1_writes_only MiFromKm_ref udiv0_ref
                          balancing_pause car_SOC H))).
Defined.

Lemma qc_counter_bounded_witness :
  0 <= plugged_in.[mi_qc_counter] <= 3 /\
  0 <= (exec MiFromKm_ref udiv0_ref NET_FN_INTERNALGPS_ref NET_FN_12VMONITOR_ref
          (Poll0 range_255) plugged_in).[mi_qc_counter] <= 3.
Proof.
  assert (H : 0 <= plugged_in.[mi_qc_counter] <= 3)
    by (vm_compute; split; discriminate).
  exact (conj H (qc_counter_bounded MiFromKm_ref udiv0_ref
                   NET_FN_INTERNALGPS_ref NET_FN_12VMONITOR_ref
                   (Poll0 range_255) plugged_in H)).
Defined.

Lemma anchor_SOC_floor_witness :
  20 <= quick_charge_at_15.[mi_last_good_SOC] /\
  20 <= (exec MiFromKm_ref udiv0_ref NET_FN_INTERNALGPS_ref NET_FN_12VMONITOR_ref
           Ticker1 quick_charge_at_15).[mi_last_good_SOC].
Proof.
  assert (H : 20 <= quick_charge_at_15.[mi_last_good_SOC])
    by (vm_compute; discriminate).
  exact (conj H (anchor_SOC_floor MiFromKm_ref udiv0_ref
                   NET_FN_INTERNALGPS_ref NET_FN_12VMONITOR_ref
                   Ticker1 quick_charge_at_15 H)).
Defined.

Lemma quick_charge_range_defined_witness :
  ((stale_tickers quick_charge_at_50).[mi_quick_charge] = 1 /\
   10 < quick_charge_at_50.[car_SOC] < 2 ^ 8 /\
   20 <= quick_charge_at_50.[mi_last_good_SOC] < 2 ^ 8 /\
   0 <= quick_charge_at_50.[mi_last_good_range] < 2 ^ 8) /\
  10 <= (tick quick_charge_at_50).[mi_last_good_SOC] - 10.
Proof.
  assert (H1 : (stale_tickers quick_charge_at_50).[mi_quick_charge] = 1)
    by (vm_compute; reflexivity).
  assert (H2 : 10 < quick_charge_at_50.[car_SOC] < 2 ^ 8)
    by (vm_compute; split; reflexivity).
  assert (H3 : 20 <= quick_charge_at_50.[mi_last_good_SOC] < 2 ^ 8)
    by (vm_compute; split; [discriminate | reflexivity]).
  assert (H4 : 0 <= quick_charge_at_50.[mi_last_good_range] < 2 ^ 8)
    by (vm_compute; split; [discriminate | reflexivity]).
  exact (conj (conj H1 (conj H2 (conj H3 H4)))
           (proj1 (quick_charge_range_defined MiFromKm_ref udiv0_ref
                     quick_charge_at_50 H1 H2 H3 H4))).
Defined.

Lemma quick_charge_range_at_anchor_witness :
  ((stale_tickers quick_charge_at_50).[mi_quick_charge] = 1 /\
   20 <= quick_charge_at_50.[car_SOC] < 2 ^ 8 /\
   quick_charge_at_50.[mi_last_good_SOC] = quick_charge_at_50.[car_SOC] /\
   0 <= quick_charge_at_50.[mi_last_good_range] < 2 ^ 8) /\
  (tick quick_charge_at_50).[car_estrange]
  = quick_charge_at_50.[mi_last_good_range].
Proof.
  assert (H1 : (stale_tickers quick_charge_at_50).[mi_quick_charge] = 1)
    by (vm_compute; reflexivity).
  assert (H2 : 20 <= quick_charge_at_50.[car_SOC] < 2 ^ 8)
    by (vm_compute; split; [discriminate | reflexivity]).
  assert (H3 : quick_charge_at_50.[mi_last_good_SOC]
               = quick_charge_at_50.[car_SOC]) by reflexivity.
  assert (H4 : 0 <= quick_charge_at_50.[mi_last_good_range] < 2 ^ 8)
    by (vm_compute; split; [discriminate | reflexivity]).
  exact (conj (conj H1 (conj H2 (conj H3 H4)))
           (quick_charge_range_at_anchor MiFromKm_ref udiv0_ref
              quick_charge_at_50 H1 H2 H3 H4)).
Defined.

Lemma quick_charge_starts_witness :
  ((stale_tickers quick_charge_at_50).[mi_quick_charge] = 1 /\
   Z.land quick_charge_at_50.[car_doors1] 0x08 = 0) /\
  (tick quick_charge_at_50).[car_chargelimit] = 125.
Proof.
  assert (H1 : (stale_tickers quick_charge_at_50).[mi_quick_charge] = 1)
    by (vm_compute; reflexivity).
  assert (H2 : Z.land quick_charge_at_50.[car_doors1] 0x08 = 0)
    by (vm_compute; reflexivity).
  exact (conj (conj H1 H2)
           (proj1 (proj2 (proj2 (quick_charge_starts MiFromKm_ref udiv0_ref
                                   quick_charge_at_50 H1 H2))))).
Defined.

Lemma quick_charge_no_energy_witness :
  (quick_charge_under_way.[mi_quick_charge] = 1 /\
   0 <= quick_charge_under_way.[mi_stale_charge] < 2 ^ 8 /\
   quick_charge_under_way.[mi_stale_charge] <> 1 /\
   Z.land quick_charge_under_way.[car_doors1] 0x08 <> 0 /\
   0 <= quick_charge_under_way.[mi_charge_timer] < 255) /\
  (tick quick_charge_under_way).[car_chargekwh]
  = quick_charge_under_way.[car_chargekwh] /\
  (tick quick_charge_under_way).[mi_charge_wm]
  = quick_charge_under_way.[mi_charge_wm].
Proof.
  assert (H1 : quick_charge_under_way.[mi_quick_charge] = 1)
    by (vm_compute; reflexivity).
  assert (H2 : 0 <= quick_charge_under_way.[mi_stale_charge] < 2 ^ 8)
    by (vm_compute; split; [discriminate | reflexivity]).
  assert (H3 : quick_charge_under_way.[mi_stale_charge] <> 1)
    by (vm_compute; discriminate).
  assert (H4 : Z.land quick_charge_under_way.[car_doors1] 0x08 <> 0)
    by (vm_compute; discriminate).
  assert (H5 : 0 <= quick_charge_under_way.[mi_charge_timer] < 255)
    by (vm_compute; split; [discriminate | reflexivity]).
  destruct (quick_charge_no_energy MiFromKm_ref udiv0_ref
              quick_charge_under_way H1 H2 H3 H4 H5) as (_ & K & W & _).
  exact (conj (conj H1 (conj H2 (conj H3 (conj H4 H5)))) (conj K W)).
Defined.

Lemma charge_stale_expiry_witness :
  (pause_going_stale.[mi_stale_charge] = 1 /\
   Z.land pause_going_stale.[car_doors1] 0x08 <> 0) /\
  (tick pause_going_stale).[car_linevoltage] = 0.
Proof.
  assert (H1 : pause_going_stale.[mi_stale_charge] = 1) by reflexivity.
  assert (H2 : Z.land pause_going_stale.[car_doors1] 0x08 <> 0)
    by (vm_compute; discriminate).
  exact (conj (conj H1 H2)
           (proj1 (charge_stale_expiry MiFromKm_ref udiv0_ref
                     pause_going_stale H1 H2))).
Defined.

Lemma charge_never_hangs_witness :
  1 <= balancing_pause.[mi_stale_charge] < 2 ^ 8 /\
  Z.land (ticks MiFromKm_ref udiv0_ref
            (Z.to_nat balancing_pause.[mi_stale_charge])
            balancing_pause).[car_doors1] 0x08 = 0.
Proof.
  assert (H : 1 <= balancing_pause.[mi_stale_charge] < 2 ^ 8)
    by (vm_compute; split; [discriminate | reflexivity]).
  exact (conj H (proj1 (charge_never_hangs MiFromKm_ref udiv0_ref
                          balancing_pause H))).
Defined.

Lemma quick_charge_after_stale_witness :
  (quick_charge_going_stale.[mi_qc_counter] = 0 /\
   quick_charge_going_stale.[mi_stale_charge] = 1 /\
   confirming quick_charge_going_stale range_255) /\
  (vehicle_mitsubishi_poll0 range_255
     (tick quick_charge_going_stale)).[mi_quick_charge] = 1.
Proof.
  assert (H1 : quick_charge_going_stale.[mi_qc_counter] = 0) by reflexivity.
  assert (H2 : quick_charge_going_stale.[mi_stale_charge] = 1) by reflexivity.
  assert (H3 : confirming quick_charge_going_stale range_255)
    by (repeat split; vm_compute; reflexivity).
  exact (conj (conj H1 (conj H2 H3))
           (proj2 (proj2 (quick_charge_after_stale MiFromKm_ref udiv0_ref
                            range_255 quick_charge_going_stale H1 H2 H3)))).
Defined.

Lemma awake_window_witness :
  (1 <= 5 <= 59)%nat /\
  Z.land (ticks MiFromKm_ref udiv0_ref 5
            (vehicle_mitsubishi_poll0 range_100 power_on)).[car_doors3] 0x01 = 1.
Proof.
  assert (H : (1 <= 5 <= 59)%nat) by lia.
  exact (conj H (proj1 (proj1 (awake_window MiFromKm_ref udiv0_ref range_100
                                 power_on 5) H))).
Defined.

Lemma normal_range_published_witness :
  ((stale_tickers driving).[mi_quick_charge] <> 1 /\
   driving.[can_mileskm] <> 75 /\ driving.[mi_estrange] <> 255) /\
  (tick driving).[car_estrange] = driving.[mi_estrange].
Proof.
  assert (H1 : (stale_tickers driving).[mi_quick_charge] <> 1)
    by (vm_compute; discriminate).
  assert (H2 : driving.[can_mileskm] <> 75) by (vm_compute; discriminate).
  assert (H3 : driving.[mi_estrange] <> 255) by (vm_compute; discriminate).
  exact (conj (conj H1 (conj H2 H3))
           (proj1 (normal_range_published MiFromKm_ref udiv0_ref driving H1 H2)
              H3)).
Defined.

Lemma charge_duration_counts_witness :
  (Forall charging_frame [charger_150V_16A; charger_240V_25A] /\
   ongoing charge_started /\
   Z.of_nat (length [charger_150V_16A; charger_240V_25A]) < 2 ^ 16) /\
  (charge_minutes MiFromKm_ref udiv0_ref [charger_150V_16A; charger_240V_25A]
     charge_started).[car_chargeduration]
  = Z.of_nat (length [charger_150V_16A; charger_240V_25A]).
Proof.
  assert (H1 : Forall charging_frame [charger_150V_16A; charger_240V_25A]).
  { repeat constructor;
      [apply charging_frame_150V_16A | apply charging_frame_240V_25A]. }
  assert (H2 : Z.of_nat (length [charger_150V_16A; charger_240V_25A]) < 2 ^ 16)
    by reflexivity.
  exact (conj (conj H1 (conj ongoing_charge_started H2))
           (proj1 (charge_duration_counts MiFromKm_ref udiv0_ref _
                     charge_started H1 ongoing_charge_started
                     eq_refl eq_refl eq_refl eq_refl H2))).
Defined.

Lemma standard_charge_starts_witness :
  ((stale_tickers plugged_in).[car_chargecurrent] <> 0 /\
   (stale_tickers plugged_in).[car_linevoltage] > 100 /\
   (stale_tickers plugged_in).[mi_quick_charge] <> 1 /\
   Z.land plugged_in.[car_doors1] 0x08 = 0) /\
  (tick plugged_in).[car_chargestate] = 1.
Proof.
  assert (H1 : (stale_tickers plugged_in).[car_chargecurrent] <> 0)
    by (vm_compute; discriminate).
  assert (H2 : (stale_tickers plugged_in).[car_linevoltage] > 100)
    by (vm_compute; reflexivity).
  assert (H3 : (stale_tickers plugged_in).[mi_quick_charge] <> 1)
    by (vm_compute; discriminate).
  assert (H4 : Z.land plugged_in.[car_doors1] 0x08 = 0)
    by (vm_compute; reflexivity).
  exact (conj (conj H1 (conj H2 (conj H3 H4)))
           (proj1 (standard_charge_starts MiFromKm_ref udiv0_ref plugged_in
                     H1 H2 H3 H4))).
Defined.

Lemma charge_stop_transitions_witness :
  ((stale_tickers unplugged_at_80).[car_chargecurrent] = 0 /\
   (stale_tickers unplugged_at_80).[mi_quick_charge] = 0 /\
   Z.land unplugged_at_80.[car_doors1] 0x08 <> 0 /\
   (stale_tickers unplugged_at_80).[car_linevoltage] < 100) /\
  ((stale_tickers full_pack).[car_chargecurrent] = 0 /\
   (stale_tickers full_pack).[mi_quick_charge] = 0 /\
   Z.land full_pack.[car_doors1] 0x08 <> 0 /\
   (stale_tickers full_pack).[car_linevoltage] > 100 /\
   full_pack.[car_SOC] = 100) /\
  (tick unplugged_at_80).[car_chargestate]
  = (if bool_decide (unplugged_at_80.[car_SOC] < 95) then 21 else 4) /\
  (tick full_pack).[car_chargestate] = 4.
Proof.
  assert (H1 : (stale_tickers unplugged_at_80).[car_chargecurrent] = 0)
    by (vm_compute; reflexivity).
  assert (H2 : (stale_tickers unplugged_at_80).[mi_quick_charge] = 0)
    by (vm_compute; reflexivity).
  assert (H3 : Z.land unplugged_at_80.[car_doors1] 0x08 <> 0)
    by (vm_compute; discriminate).
  assert (H4 : (stale_tickers unplugged_at_80).[car_linevoltage] < 100)
    by (vm_compute; reflexivity).
  assert (G1 : (stale_tickers full_pack).[car_chargecurrent] = 0)
    by (vm_compute; reflexivity).
  assert (G2 : (stale_tickers full_pack).[mi_quick_charge] = 0)
    by (vm_compute; reflexivity).
  assert (G3 : Z.land full_pack.[car_doors1] 0x08 <> 0)
    by (vm_compute; discriminate).
  assert (G4 : (stale_tickers full_pack).[car_linevoltage] > 100)
    by (vm_compute; reflexivity).
  assert (G5 : full_pack.[car_SOC] = 100) by reflexivity.
  exact (conj (conj H1 (conj H2 (conj H3 H4)))
          (conj (conj G1 (conj G2 (conj G3 (conj G4 G5))))
            (conj
              (proj1 (proj1 (charge_stop_transitions MiFromKm_ref udiv0_ref
                               unplugged_at_80 H1 H2 H3) H4))
              (proj1 (proj2 (charge_stop_transitions MiFromKm_ref udiv0_ref
                               full_pack G1 G2 G3) G4 G5))))).
Defined.
